(** * Land / home sale listings: a shallow embedding of [app.py]

    The Flask application keeps two tables ([User], [Property]) and an
    upload folder.  Every request handler is embedded as a function from
    the request and the application state to a response and a new state.

    Texts are [string]s whose characters are read as code points (the
    model covers the code points below 256).  Library functions whose
    definition needs Unicode or floating-point tables ([float], [int],
    [secure_filename], [generate_password_hash]) are the fields of the
    class [PyRuntime]; everything else is defined here. *)

From Stdlib Require Import ZArith NArith Ascii String List Bool Lia Floats.
From stdpp Require Import gmap strings list fin_maps sorting pretty.

Local Open Scope string_scope.
Local Open Scope Z_scope.

(** ** Python and SQLite text primitives *)

Module Text.

Definition code (c : ascii) : N := N_of_ascii c.

(** [str.isspace] on the code points below 256. *)
Definition is_space (c : ascii) : bool :=
  let n := code c in
  ((9 <=? n) && (n <=? 13) || (28 <=? n) && (n <=? 32)
   || (n =? 133) || (n =? 160))%N.

Fixpoint lstrip (s : string) : string :=
  match s with
  | String c s' => if is_space c then lstrip s' else s
  | EmptyString => EmptyString
  end.

Fixpoint rstrip (s : string) : string :=
  match s with
  | String c s' =>
      match rstrip s' with
      | EmptyString => if is_space c then EmptyString else String c EmptyString
      | r => String c r
      end
  | EmptyString => EmptyString
  end.

(** [s.strip()] *)
Definition strip (s : string) : string := rstrip (lstrip s).

(** Truth value of a Python [str]: non-empty. *)
Definition truthy (s : string) : bool :=
  match s with EmptyString => false | _ => true end.

Fixpoint map (f : ascii -> ascii) (s : string) : string :=
  match s with
  | String c s' => String (f c) (map f s')
  | EmptyString => EmptyString
  end.

(** [str.lower] on the code points below 256: A-Z and the capital
    letters 192..222 other than the multiplication sign 215. *)
Definition lower_char (c : ascii) : ascii :=
  let n := code c in
  if ((65 <=? n) && (n <=? 90)
      || (192 <=? n) && (n <=? 222) && negb (n =? 215))%N
  then ascii_of_N (n + 32) else c.

Definition lower : string -> string := map lower_char.

(** SQLite's [lower()] and the case folding of its [LIKE]: ASCII only. *)
Definition sql_lower_char (c : ascii) : ascii :=
  let n := code c in
  if ((65 <=? n) && (n <=? 90))%N then ascii_of_N (n + 32) else c.

Definition sql_lower : string -> string := map sql_lower_char.

Definition eqb_nocase (a b : ascii) : bool :=
  Ascii.eqb (sql_lower_char a) (sql_lower_char b).

(** SQLite [text LIKE pat] without an escape character: [%] stands
    for any run of characters, [_] for exactly one. *)
Fixpoint like (pat text : string) : bool :=
  match pat with
  | EmptyString => negb (truthy text)
  | String p pat' =>
      if Ascii.eqb p "%" then
        (fix any (t : string) : bool :=
           like pat' t
           || match t with
              | String _ t' => any t'
              | EmptyString => false
              end) text
      else
        match text with
        | String c text' =>
            (Ascii.eqb p "_" || eqb_nocase p c) && like pat' text'
        | EmptyString => false
        end
  end.

(** SQLAlchemy renders [col.ilike(pat)] for SQLite as
    [lower(col) LIKE lower(pat)]. *)
Definition ilike (col pat : string) : bool :=
  like (sql_lower pat) (sql_lower col).

(** [sub in s], as a boolean. *)
Fixpoint prefixb (p s : string) : bool :=
  match p, s with
  | EmptyString, _ => true
  | String a p', String b s' => Ascii.eqb a b && prefixb p' s'
  | String _ _, EmptyString => false
  end.

Fixpoint containsb (sub s : string) : bool :=
  prefixb sub s
  || match s with
     | String _ s' => containsb sub s'
     | EmptyString => false
     end.

Fixpoint existsb (f : ascii -> bool) (s : string) : bool :=
  match s with
  | String c s' => f c || existsb f s'
  | EmptyString => false
  end.

Fixpoint forallb (f : ascii -> bool) (s : string) : bool :=
  match s with
  | String c s' => f c && forallb f s'
  | EmptyString => true
  end.

End Text.

(** ** Library functions taken as given *)

(** Results of the Python built-ins and of Werkzeug that the handlers
    call.  A parser returns [None] where Python raises [ValueError];
    floats are IEEE doubles, integers are unbounded as in Python. *)
Class PyRuntime := {
  py_float : string -> option float;
  py_int : string -> option Z;
  secure_filename : string -> string;
  generate_password_hash : string -> string;
}.

(** ** Models: the two tables *)

Module User.
Record t := mk {
  id : Z;
  name : string;
  email : string;
  password_hash : string;
  role : string;
}.
End User.

Module Property.
Record t := mk {
  id : Z;
  title : string;
  description : option string;
  location : string;
  property_type : string;
  sale_or_rent : string;
  price : option float;
  rent : option float;
  area : option float;
  rooms : option Z;
  contact : string;
  image_filename : option string;
  gmap_link : string;
  owner_id : Z;
}.
End Property.

(** An uploaded file: [werkzeug.datastructures.FileStorage]. *)
Record FileStorage := {
  filename : string;
  stream : list Byte.byte;
}.

(** The database and the upload folder.  [uploads] maps the name of a
    file in [UPLOAD_FOLDER] to its contents. *)
Record State := {
  users : list User.t;
  listings : list Property.t;
  uploads : gmap string (list Byte.byte);
}.

Inductive Method := GET | POST.

(** What a handler reads of the request and of the session cookie. *)
Record Request := {
  method : Method;
  args : gmap string string;
  form : gmap string string;
  files : gmap string FileStorage;
  session_user_id : option Z;
}.

Inductive Response :=
| Render (template : string) (properties : list Property.t)
| Redirect (endpoint : string) (pid : option Z)
| Abort (status : Z)
| Raise (exn : string).

(** A handler's outcome: the response and the messages it flashed. *)
Record Outcome := {
  response : Response;
  flashed : list (string * string);
}.

(** ** Early exits: an error monad over [Response] *)

Inductive result (A : Type) :=
| Ok (a : A)
| Exit (o : Outcome).
Arguments Ok {A} a.
Arguments Exit {A} o.

#[global] Instance result_ret : MRet result := fun A a => Ok a.
#[global] Instance result_bind : MBind result := fun A B f m =>
  match m with
  | Ok a => f a
  | Exit o => Exit o
  end.

#[global] Instance result_fmap : FMap result := fun A B f m =>
  match m with
  | Ok a => Ok (f a)
  | Exit o => Exit o
  end.

Definition plain (r : Response) : Outcome := {| response := r; flashed := [] |}.

Definition flash_then (message category : string) (r : Response) : Outcome :=
  {| response := r; flashed := [(message, category)] |}.

(** Every early exit of the handlers happens before the first write,
    so it leaves the state as it was.  (A commit that fails after an
    upload was saved is not an exit: the handler returns the state with
    the file in it.) *)
Definition run (st : State) (m : result (Outcome * State)) : Outcome * State :=
  match m with
  | Ok r => r
  | Exit o => (o, st)
  end.

(** ** SQL comparisons on nullable columns

    A comparison with [NULL] is not true, so the row is filtered out. *)

Definition sql_ge (col : option float) (v : float) : bool :=
  match col with
  | Some x => PrimFloat.leb v x
  | None => false
  end.

Definition sql_le (col : option float) (v : float) : bool :=
  match col with
  | Some x => PrimFloat.leb x v
  | None => false
  end.

Definition sql_eq_int (col : option Z) (v : Z) : bool :=
  match col with
  | Some x => Z.eqb x v
  | None => false
  end.

(** [query.order_by(Property.id.desc())] *)
Definition id_desc (p q : Property.t) : Prop := Property.id q <= Property.id p.

#[global] Instance id_desc_dec : RelDecision id_desc :=
  fun p q => decide (Property.id q <= Property.id p).

Definition order_by_id_desc (rows : list Property.t) : list Property.t :=
  merge_sort id_desc rows.

(** [query.filter(cond)] when the Python value [supplied] is present. *)
Definition filter_if {A} (supplied : option A) (cond : A -> Property.t -> bool)
    (query : list Property.t) : list Property.t :=
  match supplied with
  | Some v => List.filter (cond v) query
  | None => query
  end.

(** [x if x else None] for a text: the empty text counts as absent. *)
Definition nonempty (s : string) : option string :=
  if Text.truthy s then Some s else None.

(** ** [os.path.splitext] *)

Definition is_dot (c : ascii) : bool := Ascii.eqb c ".".
Definition is_sep (c : ascii) : bool := Ascii.eqb c "/".

(** [(p[:dotIndex], p[dotIndex:])] for the last dot of [p]. *)
Fixpoint rsplit_dot (p : string) : option (string * string) :=
  match p with
  | EmptyString => None
  | String c p' =>
      match rsplit_dot p' with
      | Some (b, e) => Some (String c b, e)
      | None => if is_dot c then Some (EmptyString, p) else None
      end
  end.

(** What follows the last separator. *)
Fixpoint basename (p : string) : string :=
  match p with
  | EmptyString => EmptyString
  | String c p' =>
      if Text.existsb is_sep p' then basename p'
      else if is_sep c then p' else p
  end.

(** The extension starts at the last dot, if that dot lies in the last
    path component and is preceded there by a character other than a dot. *)
Definition splitext (p : string) : string * string :=
  match rsplit_dot p with
  | Some (b, e) =>
      if negb (Text.existsb is_sep e)
         && Text.existsb (fun c => negb (is_dot c)) (basename b)
      then (b, e) else (p, EmptyString)
  | None => (p, EmptyString)
  end.

(** ** [urllib.parse.quote_plus] *)

Definition is_unreserved (c : ascii) : bool :=
  let n := Text.code c in
  ((65 <=? n) && (n <=? 90) || (97 <=? n) && (n <=? 122)
   || (48 <=? n) && (n <=? 57)
   || (n =? 95) || (n =? 46) || (n =? 45) || (n =? 126))%N.

Definition hex_digit (n : N) : ascii :=
  if (n <? 10)%N then ascii_of_N (48 + n) else ascii_of_N (55 + n).

Definition percent (byte : N) : string :=
  String "%" (String (hex_digit (byte / 16)) (String (hex_digit (byte mod 16)) EmptyString)).

(** UTF-8 of a code point below 256. *)
Definition utf8 (c : ascii) : list N :=
  let n := Text.code c in
  if (n <? 128)%N then [n] else [192 + n / 64; 128 + n mod 64]%N.

Definition quote_char (c : ascii) : string :=
  if is_unreserved c then String c EmptyString
  else if Ascii.eqb c " " then "+"
  else foldr (fun b acc => percent b ++ acc) EmptyString (utf8 c).

Fixpoint quote_plus (s : string) : string :=
  match s with
  | String c s' => quote_char c ++ quote_plus s'
  | EmptyString => EmptyString
  end.

Definition build_gmaps_link (location : string) : string :=
  "https://www.google.com/maps/search/?api=1&query=" ++ quote_plus location.

(** *** Decoding, to say what a percent-encoding embeds

    [unquote_plus] reads [+] as a space and [%XY] as a byte, then
    decodes the bytes as UTF-8; [None] where the text leaves the code
    points of the model. *)

Definition hex_value (c : ascii) : option N :=
  let n := Text.code c in
  if ((48 <=? n) && (n <=? 57))%N then Some (n - 48)%N
  else if ((65 <=? n) && (n <=? 70))%N then Some (n - 55)%N
  else if ((97 <=? n) && (n <=? 102))%N then Some (n - 87)%N
  else None.

Fixpoint unquote_to_bytes (s : string) : list N :=
  match s with
  | EmptyString => []
  | String c s' =>
      if Ascii.eqb c "%" then
        match s' with
        | String h (String l s'') =>
            match hex_value h, hex_value l with
            | Some a, Some b => (16 * a + b)%N :: unquote_to_bytes s''
            | _, _ => Text.code c :: unquote_to_bytes s'
            end
        | _ => Text.code c :: unquote_to_bytes s'
        end
      else (if Ascii.eqb c "+" then 32%N else Text.code c) :: unquote_to_bytes s'
  end.

Fixpoint decode_utf8 (bytes : list N) : option string :=
  match bytes with
  | [] => Some EmptyString
  | b :: rest =>
      if (b <? 128)%N then String (ascii_of_N b) <$> decode_utf8 rest
      else
        match rest with
        | b2 :: rest' =>
            if ((194 <=? b) && (b <=? 195) && (128 <=? b2) && (b2 <? 192))%N
            then String (ascii_of_N ((b - 192) * 64 + (b2 - 128))) <$> decode_utf8 rest'
            else None
        | [] => None
        end
  end.

Definition unquote_plus (s : string) : option string :=
  decode_utf8 (unquote_to_bytes s).

(** The characters of a percent-encoded query component. *)
Definition url_safe (c : ascii) : bool :=
  is_unreserved c || Ascii.eqb c "%" || Ascii.eqb c "+".

(** ** The upload folder *)

(** [os.path.exists(os.path.join(UPLOAD_FOLDER, filename))]: joining the
    empty name gives the folder itself, which the application creates
    when it starts. *)
Definition path_exists (fs : gmap string (list Byte.byte)) (filename : string) : bool :=
  negb (Text.truthy filename) || bool_decide (is_Some (fs !! filename)).

(** [f"{base}_{i}{ext}"] *)
Definition numbered (base ext : string) (i : nat) : string :=
  base ++ "_" ++ pretty i ++ ext.

(** The loop [while os.path.exists(path)] of [save_image], entered with
    the current [filename] and counter [i]; [None] when [fuel] rounds
    did not reach a free name. *)
Fixpoint while_exists (fuel : nat) (fs : gmap string (list Byte.byte))
    (base ext filename : string) (i : nat) : option string :=
  if path_exists fs filename then
    match fuel with
    | O => None
    | S fuel' => while_exists fuel' fs base ext (numbered base ext i) (S i)
    end
  else Some filename.

(** [os.remove]: [None] stands for [OSError] (no such file). *)
Definition os_remove (fs : gmap string (list Byte.byte)) (filename : string)
    : option (gmap string (list Byte.byte)) :=
  match fs !! filename with
  | Some _ => Some (delete filename fs)
  | None => None
  end.

(** ** What SQLite can hold

    An integer has 64 bits: [sqlite3] raises [OverflowError] when a
    Python [int] outside that range is bound to a statement, in a query
    as in an insert or update.  A float that is NaN is stored as NULL. *)

Definition fits_sqlite (z : Z) : bool := (- 2 ^ 63 <=? z) && (z <? 2 ^ 63).

Definition sql_real (x : float) : option float :=
  if PrimFloat.is_nan x then None else Some x.

(** [db.session.commit()] goes through when [rooms] can be bound. *)
Definition storable (rooms : option Z) : bool :=
  match rooms with
  | Some v => fits_sqlite v
  | None => true
  end.

(** ** Rows *)

(** The integer primary key SQLite gives a new row. *)
Definition next_id (ids : list Z) : Z := 1 + foldr Z.max 0 ids.

Definition get_property (pid : Z) (table : list Property.t) : option Property.t :=
  List.find (fun p => Property.id p =? pid) table.

Definition update_row (p : Property.t) (table : list Property.t) : list Property.t :=
  List.map (fun r => if Property.id r =? Property.id p then p else r) table.

Definition delete_row (pid : Z) (table : list Property.t) : list Property.t :=
  List.filter (fun r => negb (Property.id r =? pid)) table.

Section Handlers.
Context {RT : PyRuntime}.

(** [request.args.get(key, '')] *)
Definition get_default (d : gmap string string) (key default : string) : string :=
  match d !! key with
  | Some v => v
  | None => default
  end.

(** [request.args.get(key, type=float)]: a missing key or a failed
    conversion gives [None]. *)
Definition get_float (d : gmap string string) (key : string) : option float :=
  d !! key ≫= py_float.

Definition get_int (d : gmap string string) (key : string) : option Z :=
  d !! key ≫= py_int.

(** *** [/properties]: the filter query

    [properties_query] gives the rows the statement selects; the route
    [properties] below adds the failure of a [rooms] value that SQLite
    cannot bind. *)

Definition properties_query (args : gmap string string)
    (table : list Property.t) : list Property.t :=
  let q_location := Text.strip (get_default args "location" "") in
  let q_type := get_default args "type" "" in
  let q_mode := get_default args "mode" "" in
  let q_min_price := get_float args "min_price" in
  let q_max_price := get_float args "max_price" in
  let q_min_rent := get_float args "min_rent" in
  let q_max_rent := get_float args "max_rent" in
  let q_min_area := get_float args "min_area" in
  let q_max_area := get_float args "max_area" in
  let q_rooms := get_int args "rooms" in
  let query := table in
  let query := filter_if (nonempty q_location)
    (fun q p => Text.ilike (Property.location p) ("%" ++ q ++ "%")) query in
  let query := filter_if (nonempty q_type)
    (fun q p => String.eqb (Property.property_type p) q) query in
  let query := filter_if (nonempty q_mode)
    (fun q p => String.eqb (Property.sale_or_rent p) q) query in
  let query := filter_if q_min_price (fun v p => sql_ge (Property.price p) v) query in
  let query := filter_if q_max_price (fun v p => sql_le (Property.price p) v) query in
  let query := filter_if q_min_rent (fun v p => sql_ge (Property.rent p) v) query in
  let query := filter_if q_max_rent (fun v p => sql_le (Property.rent p) v) query in
  let query := filter_if q_min_area (fun v p => sql_ge (Property.area p) v) query in
  let query := filter_if q_max_area (fun v p => sql_le (Property.area p) v) query in
  let query := filter_if q_rooms (fun v p => sql_eq_int (Property.rooms p) v) query in
  order_by_id_desc query.

(** The route: [query.all()] fails when the [rooms] value cannot be
    bound; otherwise the rows of [properties_query] are rendered. *)
Definition properties (req : Request) (st : State) : Outcome * State :=
  if storable (get_int (args req) "rooms")
  then ({| response := Render "properties.html"
                         (properties_query (args req) (listings st));
           flashed := [] |}, st)
  else (plain (Raise "OverflowError"), st).

(** *** Helpers *)

Definition current_user (req : Request) (st : State) : option User.t :=
  match session_user_id req with
  | Some uid =>
      if uid =? 0 then None
      else List.find (fun u => User.id u =? uid) (users st)
  | None => None
  end.

(** [if not login_required(): return redirect(url_for('login'))] *)
Definition login_required (req : Request) (st : State) : result unit :=
  match current_user req st with
  | Some _ => Ok tt
  | None => Exit (flash_then "Please log in first." "warning" (Redirect "login" None))
  end.

(** [current_user().id] *)
Definition current_user_id (req : Request) (st : State) : result Z :=
  match current_user req st with
  | Some u => Ok (User.id u)
  | None => Exit (plain (Raise "AttributeError"))
  end.

(** [request.form[key]]: a missing key is a [BadRequestKeyError]. *)
Definition form_item (req : Request) (key : string) : result string :=
  match form req !! key with
  | Some v => Ok v
  | None => Exit (plain (Abort 400))
  end.

(** [conv(request.form[key]) if request.form.get(key) else None] *)
Definition form_number {A} (conv : string -> option A) (req : Request)
    (key : string) : result (option A) :=
  match form req !! key with
  | Some v =>
      if Text.truthy v then
        match conv v with
        | Some x => Ok (Some x)
        | None => Exit (plain (Raise "ValueError"))
        end
      else Ok None
  | None => Ok None
  end.

Definition get_or_404 (pid : Z) (st : State) : result Property.t :=
  match get_property pid (listings st) with
  | Some p => Ok p
  | None => Exit (plain (Abort 404))
  end.

Definition save_image (file_storage : option FileStorage)
    (fs : gmap string (list Byte.byte))
    : option string * gmap string (list Byte.byte) :=
  match file_storage with
  | None => (None, fs)
  | Some f =>
      if negb (Text.truthy (filename f)) || negb (Text.truthy (Text.strip (filename f)))
      then (None, fs)
      else
        let name := secure_filename (filename f) in
        let '(base, ext) := splitext name in
        match while_exists (S (size fs)) fs base ext name 1 with
        | Some name' => (Some name', <[name' := stream f]> fs)
        | None => (None, fs)
        end
  end.

(** *** [/register] *)

Definition register (req : Request) (st : State) : Outcome * State :=
  match method req with
  | POST => run st (
      name ← Text.strip <$> form_item req "name";
      email ← (fun e => Text.lower (Text.strip e)) <$> form_item req "email";
      password ← form_item req "password";
      let role := get_default (form req) "role" "owner" in
      if negb (Text.truthy name) || negb (Text.truthy email)
         || negb (Text.truthy password)
      then Exit (flash_then "All fields are required." "danger" (Redirect "register" None))
      else if List.existsb (fun u => String.eqb (User.email u) email) (users st)
      then Exit (flash_then "Email already registered." "warning" (Redirect "register" None))
      else
        let u := User.mk (next_id (User.id <$> users st)) name email
                   (generate_password_hash password) role in
        Ok (flash_then "Registration successful. Please log in." "success"
              (Redirect "login" None),
            {| users := users st ++ [u];
               listings := listings st;
               uploads := uploads st |}))
  | GET => (plain (Render "register.html" []), st)
  end.

(** *** [/add] *)

Definition add_property (req : Request) (st : State) : Outcome * State :=
  run st (
    _ ← login_required req st;
    match method req with
    | POST =>
        title ← form_item req "title";
        let description := form req !! "description" in
        location ← form_item req "location";
        property_type ← form_item req "property_type";
        sale_or_rent ← form_item req "sale_or_rent";
        area ← form_number py_float req "area";
        price ← form_number py_float req "price";
        rent ← form_number py_float req "rent";
        rooms ← form_number py_int req "rooms";
        contact ← form_item req "contact";
        let gmap_link := Text.strip (get_default (form req) "gmap_link" "") in
        let gmap_link :=
          if Text.truthy gmap_link then gmap_link else build_gmaps_link location in
        let '(image_filename, fs) := save_image (files req !! "image") (uploads st) in
        owner ← current_user_id req st;
        let p := Property.mk (next_id (Property.id <$> listings st))
                   title description location property_type sale_or_rent
                   (price ≫= sql_real) (rent ≫= sql_real) (area ≫= sql_real)
                   rooms contact image_filename gmap_link owner in
        if storable rooms
        then Ok (flash_then "Property added!" "success" (Redirect "properties" None),
                 {| users := users st;
                    listings := listings st ++ [p];
                    uploads := fs |})
        else Ok (plain (Raise "OverflowError"),
                 {| users := users st;
                    listings := listings st;
                    uploads := fs |})
    | GET => Ok (plain (Render "add_property.html" []), st)
    end).

(** *** [/edit/<pid>] *)

Definition edit_property (pid : Z) (req : Request) (st : State) : Outcome * State :=
  run st (
    _ ← login_required req st;
    p ← get_or_404 pid st;
    uid ← current_user_id req st;
    if negb (Property.owner_id p =? uid) then Exit (plain (Abort 403))
    else
      match method req with
      | POST =>
          title ← form_item req "title";
          let description := form req !! "description" in
          location ← form_item req "location";
          property_type ← form_item req "property_type";
          sale_or_rent ← form_item req "sale_or_rent";
          area ← form_number py_float req "area";
          price ← form_number py_float req "price";
          rent ← form_number py_float req "rent";
          rooms ← form_number py_int req "rooms";
          contact ← form_item req "contact";
          let gmap_link := Text.strip (get_default (form req) "gmap_link" "") in
          let gmap_link :=
            if Text.truthy gmap_link then gmap_link else build_gmaps_link location in
          let img := files req !! "image" in
          let '(image_filename, fs) :=
            match img with
            | Some f =>
                if Text.truthy (filename f) && Text.truthy (Text.strip (filename f))
                then save_image img (uploads st)
                else (Property.image_filename p, uploads st)
            | None => (Property.image_filename p, uploads st)
            end in
          let p' := Property.mk (Property.id p)
                      title description location property_type sale_or_rent
                      (price ≫= sql_real) (rent ≫= sql_real) (area ≫= sql_real)
                      rooms contact image_filename gmap_link
                      (Property.owner_id p) in
          if storable rooms
          then Ok (flash_then "Property updated!" "success"
                     (Redirect "property_detail" (Some (Property.id p))),
                   {| users := users st;
                      listings := update_row p' (listings st);
                      uploads := fs |})
          else Ok (plain (Raise "OverflowError"),
                   {| users := users st;
                      listings := listings st;
                      uploads := fs |})
      | GET => Ok (plain (Render "edit_property.html" [p]), st)
      end).

(** *** [/delete/<pid>] *)

Definition delete_property (pid : Z) (req : Request) (st : State) : Outcome * State :=
  run st (
    _ ← login_required req st;
    p ← get_or_404 pid st;
    uid ← current_user_id req st;
    if negb (Property.owner_id p =? uid) then Exit (plain (Abort 403))
    else
      let fs :=
        match Property.image_filename p ≫= nonempty with
        | Some image =>
            match os_remove (uploads st) image with
            | Some fs' => fs'
            | None => uploads st
            end
        | None => uploads st
        end in
      Ok (flash_then "Property deleted." "danger" (Redirect "properties" None),
          {| users := users st;
             listings := delete_row (Property.id p) (listings st);
             uploads := fs |})).

End Handlers.

(** ** What the specification asks of a search

    A filter is supplied when its text is non-empty (for the numeric
    ones: when it converts); a supplied filter must hold of the row. *)

Definition holds {A} (supplied : option A) (test : A -> bool) : bool :=
  match supplied with
  | Some v => test v
  | None => true
  end.







(** A form value is blank when it is absent, empty or whitespace only. *)
Definition blank (supplied : option string) : bool :=
  match supplied with
  | Some s => Text.forallb Text.is_space s
  | None => true
  end.

(** ** A runtime for plain ASCII inputs

    Decimal integers, [nan], and file names kept to the characters
    Werkzeug keeps.  It agrees with Python and Werkzeug on the inputs
    it is run on below: integers of a few digits (as floats, below
    2^53), and file names made of letters, digits and one dot. *)

Module Ascii_runtime.

Definition is_digit (c : ascii) : bool :=
  let n := Text.code c in ((48 <=? n) && (n <=? 57))%N.

Fixpoint digits (s : string) (acc : Z) : option Z :=
  match s with
  | EmptyString => Some acc
  | String c s' =>
      if is_digit c then digits s' (10 * acc + Z.of_N (Text.code c - 48)) else None
  end.

Definition int (s : string) : option Z :=
  match s with
  | EmptyString => None
  | String c s' =>
      if Ascii.eqb c "-" then
        if Text.truthy s' then Z.opp <$> digits s' 0 else None
      else digits s 0
  end.

Definition float_of_Z (z : Z) : float :=
  if z <? 0 then PrimFloat.opp (PrimFloat.of_uint63 (Uint63.of_Z (- z)))
  else PrimFloat.of_uint63 (Uint63.of_Z z).

Definition float (s : string) : option float :=
  if String.eqb s "nan" then Some PrimFloat.nan else float_of_Z <$> int s.

Fixpoint keep (f : ascii -> bool) (s : string) : string :=
  match s with
  | String c s' => if f c then String c (keep f s') else keep f s'
  | EmptyString => EmptyString
  end.

Definition safe_name (s : string) : string :=
  keep (fun c => is_unreserved c && negb (Ascii.eqb c "~")) s.

Definition runtime : PyRuntime := {|
  py_float := float;
  py_int := int;
  secure_filename := safe_name;
  generate_password_hash := fun password => "plain$" ++ password;
|}.

End Ascii_runtime.

(** ** A small site

    The demo owner of [init_db], a second account, one listing with an
    image, and the requests the statements below are run on. *)

Module Site.

Definition rt : PyRuntime := Ascii_runtime.runtime.

Definition owner : User.t :=
  User.mk 1 "Demo Owner" "owner@example.com" "plain$demo123" "owner".

Definition visitor : User.t :=
  User.mk 2 "Ada" "ada@example.com" "plain$secret" "customer".

Definition flat : Property.t :=
  Property.mk 1 "2BR Flat" None "Lagos" "house" "rent"
    None (Some 500%float) None (Some 2) "0800" (Some "house.jpg")
    "https://www.google.com/maps/search/?api=1&query=Lagos" 1.

Definition plot : Property.t :=
  Property.mk 2 "Plot" None "Abuja" "land" "sale"
    (Some 9000%float) None (Some 2%float) None "0800" None
    "https://www.google.com/maps/search/?api=1&query=Abuja" 1.

Definition photo : list Byte.byte := [Byte.xff; Byte.xd8; Byte.xff].
Definition photo' : list Byte.byte := [Byte.xff; Byte.xd8; Byte.x00].

Definition st0 : State := {|
  users := [owner; visitor];
  listings := [flat; plot];
  uploads := {[ "house.jpg" := photo ]};
|}.

Definition request (m : Method) (uid : option Z) (fields : list (string * string)) : Request := {|
  method := m;
  args := ∅;
  form := list_to_map fields;
  files := ∅;
  session_user_id := uid;
|}.

Definition listing_form : list (string * string) :=
  [("title", "Shop"); ("location", "Ikeja Lagos"); ("property_type", "house");
   ("sale_or_rent", "sale"); ("price", "1200"); ("contact", "0800")].

Definition query (a : gmap string string) : Request := {|
  method := GET;
  args := a;
  form := ∅;
  files := ∅;
  session_user_id := None;
|}.



Definition search_args : gmap string string :=
  list_to_map [("location", " lag "); ("type", "house");
               ("min_rent", "400"); ("max_rent", "600")].

End Site.

(** ** The remaining routes *)

(** [werkzeug.security.check_password_hash(pwhash, password)] *)
Class PySecurity := {
  check_password_hash : string -> string -> bool;
}.

(** What [send_from_directory] answers. *)
Inductive FileResponse :=
| SendFile (data : list Byte.byte)
| NotFound.

Section Routes.
Context {RT : PyRuntime} {SEC : PySecurity}.

(** [/]: [Property.query.order_by(Property.id.desc()).limit(6).all()] *)
Definition index (req : Request) (st : State) : Outcome * State :=
  (plain (Render "index.html" (take 6 (order_by_id_desc (listings st)))), st).

(** [/property/<pid>] *)
Definition property_detail (pid : Z) (req : Request) (st : State) : Outcome * State :=
  run st (
    p ← get_or_404 pid st;
    Ok (plain (Render "property_detail.html" [p]), st)).

(** [/uploads/<filename>] *)
Definition uploaded_file (filename : string) (st : State) : FileResponse :=
  match uploads st !! filename with
  | Some data => SendFile data
  | None => NotFound
  end.

(** [User.check_password] *)
Definition check_password (u : User.t) (password : string) : bool :=
  check_password_hash (User.password_hash u) password.

(** [/login]: the outcome and the [user_id] the session holds afterwards. *)
Definition login (req : Request) (st : State) : Outcome * option Z :=
  match method req with
  | POST =>
      match (email ← (fun e => Text.lower (Text.strip e)) <$> form_item req "email";
             password ← form_item req "password";
             Ok (email, password)) with
      | Ok (email, password) =>
          match List.find (fun u => String.eqb (User.email u) email) (users st) with
          | Some u =>
              if check_password u password
              then (flash_then "Logged in." "success" (Redirect "index" None),
                    Some (User.id u))
              else (flash_then "Invalid email or password." "danger" (Redirect "login" None),
                    session_user_id req)
          | None =>
              (flash_then "Invalid email or password." "danger" (Redirect "login" None),
               session_user_id req)
          end
      | Exit o => (o, session_user_id req)
      end
  | GET => (plain (Render "login.html" []), session_user_id req)
  end.

(** [/logout]: [session.clear()] *)
Definition logout (req : Request) (st : State) : Outcome * option Z :=
  (flash_then "Logged out." "info" (Redirect "index" None), None).

(** [init_db]: the demo owner is added when the user table is empty. *)
Definition init_db (st : State) : State :=
  match users st with
  | [] =>
      {| users := [User.mk (next_id []) "Demo Owner" "owner@example.com"
                     (generate_password_hash "demo123") "owner"];
         listings := listings st;
         uploads := uploads st |}
  | _ :: _ => st
  end.

(** The routes that write, and the state a sequence of requests leaves. *)
Inductive Route :=
| To_register
| To_add
| To_edit (pid : Z)
| To_delete (pid : Z).

Definition serve (route : Route) (req : Request) (st : State) : State :=
  match route with
  | To_register => snd (register req st)
  | To_add => snd (add_property req st)
  | To_edit pid => snd (edit_property pid req st)
  | To_delete pid => snd (delete_property pid req st)
  end.

Definition serve_all (log : list (Route * Request)) (st : State) : State :=
  fold_left (fun st' '(route, req) => serve route req st') log st.

End Routes.

(** What [login_required] leaves a caller without identity with. *)
Definition login_notice : Outcome :=
  flash_then "Please log in first." "warning" (Redirect "login" None).

(** ** What the tables and the upload folder keep *)

Definition users_unique (st : State) : Prop :=
  NoDup (User.id <$> users st) /\ NoDup (User.email <$> users st).

Definition listings_unique (st : State) : Prop :=
  NoDup (Property.id <$> listings st).

(** Every listing's [owner_id] is the id of a user. *)
Definition owners_exist (st : State) : Prop :=
  Forall (fun p => Exists (fun u => User.id u = Property.owner_id p) (users st))
         (listings st).

(** Every image a listing names is in the upload folder, and no two
    listings name the same image. *)
Definition images_stored (st : State) : Prop :=
  Forall (fun n => is_Some (uploads st !! n))
         (omap Property.image_filename (listings st))
  /\ NoDup (omap Property.image_filename (listings st)).

(** ** More of the small site *)

Module Visit.

Definition sec : PySecurity :=
  {| check_password_hash := fun pwhash password => String.eqb pwhash ("plain$" ++ password) |}.

Definition empty : State := {| users := []; listings := []; uploads := ∅ |}.

Definition upload : FileStorage := {| filename := "door.png"; stream := Site.photo' |}.

Definition browser (m : Method) (uid : option Z) (fields : list (string * string))
    (image : option FileStorage) : Request := {|
  method := m;
  args := ∅;
  form := list_to_map fields;
  files := match image with Some f => {[ "image" := f ]} | None => ∅ end;
  session_user_id := uid;
|}.

Definition signup : Request :=
  browser POST None
    [("name", "Eve"); ("email", " Eve@Example.com "); ("password", "pw")] None.

Definition signin : Request :=
  browser POST None [("email", "EVE@example.com"); ("password", "pw")] None.

Definition stale : Request := browser POST (Some 99) Site.listing_form None.

Definition create : Request := browser POST (Some 1) Site.listing_form (Some upload).

(** The same with an area that is not a number, and with more rooms
    than SQLite can count. *)
Definition create_nan : Request :=
  browser POST (Some 1) (("area", "nan") :: Site.listing_form) (Some upload).

Definition create_huge : Request :=
  browser POST (Some 1) (("rooms", "9223372036854775808") :: Site.listing_form)
    (Some upload).

Definition revise : Request := browser POST (Some 1) Site.listing_form None.

Definition remove : Request := browser POST (Some 1) [] None.

Definition by_visitor : Request := browser POST (Some 2) [] None.

Definition nameless : Request :=
  browser POST None [("name", "  "); ("email", "eve@example.com"); ("password", "pw")] None.

Definition wrong_password : Request :=
  browser POST None [("email", "owner@example.com"); ("password", "nope")] None.

Definition log : list (Route * Request) :=
  [(To_register, signup);
   (To_add, browser POST (Some 1) Site.listing_form (Some upload));
   (To_edit 1, browser POST (Some 1) Site.listing_form (Some upload));
   (To_delete 2, browser POST (Some 1) [] None)].

End Visit.

(** * Properties *)

(** ** Texts: [LIKE] against containment *)

Section TextFacts.
Import Text.

Lemma map_app f a b : Text.map f (a ++ b) = Text.map f a ++ Text.map f b.
Proof. induction a as [|c a IH]; simpl; [done | by rewrite IH]. Qed.









Lemma prefixb_spec p s : prefixb p s = true <-> exists post, s = p ++ post.
Proof.
  revert s. induction p as [|a p IH]; intros s.
  - split; [intros _; by exists s | done].
  - destruct s as [|b s]; simpl.
    + split; [done | intros [post H]; discriminate H].
    + rewrite andb_true_iff, IH. split.
      * intros [->%Ascii.eqb_eq [post ->]]. by exists post.
      * intros [post [= -> ->]]. split; [apply Ascii.eqb_refl | by exists post].
Qed.

(** [containsb sub s] says that [sub] occurs in [s]. *)
Lemma containsb_spec sub s :
  containsb sub s = true <-> exists pre post, s = pre ++ sub ++ post.
Proof.
  induction s as [|c s IH].
  - simpl. rewrite orb_false_r, prefixb_spec. split.
    + intros [post ->]. by exists "", post.
    + intros (pre & post & H). destruct pre; [by exists post |]. discriminate H.
  - cbn [containsb]. rewrite orb_true_iff, IH, prefixb_spec. split.
    + intros [[post ->]|(pre & post & ->)].
      * by exists "", post.
      * by exists (String c pre), post.
    + intros ([|a pre] & post & H).
      * left. by exists post.
      * right. injection H as -> ->. by exists pre, post.
Qed.

End TextFacts.

(** ** The search *)

Section SearchFacts.
Context {RT : PyRuntime}.

Lemma filter_if_holds {A} (supplied : option A) cond l :
  filter_if supplied cond l
  = List.filter (fun p => holds supplied (fun v => cond v p)) l.
Proof.
  destruct supplied as [v|]; simpl; [done |].
  induction l as [|x l IH]; simpl; [done | by rewrite <- IH].
Qed.


Lemma filter_if_In {A} (supplied : option A) cond l p :
  In p (filter_if supplied cond l) ->
  In p l /\ holds supplied (fun v => cond v p) = true.
Proof. rewrite filter_if_holds. apply filter_In. Qed.

#[local] Instance id_desc_total : Total id_desc.
Proof. intros p q. unfold id_desc. lia. Qed.

#[local] Instance id_desc_trans : Transitive id_desc.
Proof. intros p q r. unfold id_desc. lia. Qed.



Lemma properties_query_In args table p :
  In p (properties_query args table) ->
  In p table
  /\ holds (get_float args "min_price") (fun v => sql_ge (Property.price p) v) = true
  /\ holds (get_float args "max_price") (fun v => sql_le (Property.price p) v) = true
  /\ holds (get_float args "min_rent") (fun v => sql_ge (Property.rent p) v) = true
  /\ holds (get_float args "max_rent") (fun v => sql_le (Property.rent p) v) = true
  /\ holds (get_float args "min_area") (fun v => sql_ge (Property.area p) v) = true
  /\ holds (get_float args "max_area") (fun v => sql_le (Property.area p) v) = true
  /\ holds (get_int args "rooms") (fun v => sql_eq_int (Property.rooms p) v) = true.
Proof.
  unfold properties_query, order_by_id_desc. cbv zeta. intros Hin.
  apply list_elem_of_In in Hin. rewrite merge_sort_Permutation in Hin.
  apply list_elem_of_In in Hin.
  do 7 (apply filter_if_In in Hin as [Hin ?]).
  do 3 (apply filter_if_In in Hin as [Hin _]).
  auto 10.
Qed.

(** C2.  A row whose price, rent, area or rooms is [None] is never in the
    result of a search that supplies a bound (or, for rooms, an exact
    value) on that field. *)
Theorem null_field_never_matches (args : gmap string string)
    (table : list Property.t) (p : Property.t) :
  (Property.price p = None
     /\ (is_Some (get_float args "min_price") \/ is_Some (get_float args "max_price")))
  \/ (Property.rent p = None
     /\ (is_Some (get_float args "min_rent") \/ is_Some (get_float args "max_rent")))
  \/ (Property.area p = None
     /\ (is_Some (get_float args "min_area") \/ is_Some (get_float args "max_area")))
  \/ (Property.rooms p = None /\ is_Some (get_int args "rooms")) ->
  ~ In p (properties_query args table).
Proof.
  intros H Hin. apply properties_query_In in Hin.
  destruct Hin as (_ & H1 & H2 & H3 & H4 & H5 & H6 & H7).
  destruct H as [[Hn [[v Hv]|[v Hv]]]|[[Hn [[v Hv]|[v Hv]]]|[[Hn [[v Hv]|[v Hv]]]|[Hn [v Hv]]]]];
    rewrite Hn, Hv in *; simpl in *; discriminate.
Qed.

(** C10.  A numeric search parameter whose text does not convert is
    treated as absent: the search returns what it returns without the
    parameter, and no error arises. *)
Theorem unparsable_number_is_absent (args : gmap string string)
    (table : list Property.t) (key txt : string) :
  args !! key = Some txt ->
  (key ∈ ["min_price"; "max_price"; "min_rent"; "max_rent"; "min_area"; "max_area"]
     /\ py_float txt = None)
  \/ (key = "rooms" /\ py_int txt = None) ->
  properties_query args table = properties_query (delete key args) table.
Proof.
  intros Hargs [[Hkey Hparse]|[-> Hparse]].
  - repeat (apply elem_of_cons in Hkey as [->|Hkey]); [..| by apply elem_of_nil in Hkey];
      unfold properties_query, get_float, get_int, get_default;
      rewrite lookup_delete_eq, ?lookup_delete_ne by done;
      rewrite Hargs; simpl; rewrite Hparse; reflexivity.
  - unfold properties_query, get_float, get_int, get_default.
    rewrite lookup_delete_eq, ?lookup_delete_ne by done.
    rewrite Hargs. simpl. rewrite Hparse. reflexivity.
Qed.

End SearchFacts.

(** ** Edit and delete *)

Section MutationFacts.
Context {RT : PyRuntime}.

Lemma get_property_Some pid table p :
  get_property pid table = Some p -> In p table /\ Property.id p = pid.
Proof.
  unfold get_property. intros H. apply find_some in H as [Hin Hid].
  split; [done | lia].
Qed.

Lemma get_property_delete_row pid table :
  get_property pid (delete_row pid table) = None.
Proof.
  unfold get_property, delete_row.
  induction table as [|r table IH]; simpl; [done |].
  destruct (Property.id r =? pid) eqn:E; simpl; [done |]. by rewrite E.
Qed.

Lemma delete_row_In pid table q :
  In q (delete_row pid table) <-> In q table /\ Property.id q <> pid.
Proof.
  unfold delete_row. rewrite filter_In, negb_true_iff, Z.eqb_neq. done.
Qed.

(** C5.  An edit attempted by an authenticated user who is not the
    owner of the listing is answered with 403 and leaves the whole state,
    so every field of the row, unchanged. *)
Theorem edit_by_other_user_forbidden (pid : Z) (req : Request) (st : State)
    (b : User.t) (p : Property.t) :
  current_user req st = Some b ->
  get_property pid (listings st) = Some p ->
  Property.owner_id p <> User.id b ->
  edit_property pid req st = (plain (Abort 403), st).
Proof.
  intros Hb Hp Hne.
  unfold edit_property, login_required, get_or_404, current_user_id.
  rewrite Hb, Hp. simpl.
  apply Z.eqb_neq in Hne. by rewrite Hne.
Qed.

(** C6.  A delete by the owner always succeeds and removes the row.
    When the listing names an image, that file is not in the upload
    folder afterwards, whether or not it was there (a failed removal is
    swallowed), and every other file is as before; when it names none
    (or the empty name), the upload folder is untouched. *)
Theorem delete_by_owner (pid : Z) (req : Request) (st : State)
    (a : User.t) (p : Property.t) :
  current_user req st = Some a ->
  get_property pid (listings st) = Some p ->
  Property.owner_id p = User.id a ->
  exists fs,
    delete_property pid req st
    = (flash_then "Property deleted." "danger" (Redirect "properties" None),
       {| users := users st; listings := delete_row pid (listings st); uploads := fs |})
    /\ get_property pid (delete_row pid (listings st)) = None
    /\ (forall q, In q (delete_row pid (listings st))
                  <-> In q (listings st) /\ Property.id q <> pid)
    /\ (forall image, Property.image_filename p = Some image -> image <> "" ->
        fs = delete image (uploads st)
        /\ fs !! image = None
        /\ forall other, other <> image -> fs !! other = uploads st !! other)
    /\ (Property.image_filename p = None \/ Property.image_filename p = Some "" ->
        fs = uploads st).
Proof.
  intros Ha Hp Hown.
  destruct (get_property_Some _ _ _ Hp) as [_ Hid].
  unfold delete_property, login_required, get_or_404, current_user_id.
  rewrite Ha, Hp. simpl.
  apply Z.eqb_eq in Hown. rewrite Hown. simpl. rewrite Hid.
  eexists. split; [reflexivity |].
  split; [apply get_property_delete_row |].
  split; [intros q; apply delete_row_In |].
  split.
  - intros image -> Himage. cbn [mbind option_bind]. unfold nonempty.
    assert (Text.truthy image = true) as -> by (by destruct image).
    assert (match os_remove (uploads st) image with
            | Some fs' => fs'
            | None => uploads st
            end = delete image (uploads st)) as ->.
    { unfold os_remove. destruct (uploads st !! image) eqn:E; [done |].
      symmetry. by apply delete_id. }
    split; [done |]. split; [apply lookup_delete_eq |].
    intros other Hother. by apply lookup_delete_ne.
  - by intros [-> | ->].
Qed.

End MutationFacts.

(** ** The upload folder *)

Section UploadFacts.
Context {RT : PyRuntime}.
Implicit Types fs : gmap string (list Byte.byte).

Lemma list_ascii_of_string_app a b :
  list_ascii_of_string (a ++ b) = (list_ascii_of_string a ++ list_ascii_of_string b)%list.
Proof. induction a as [|c a IH]; simpl; [done | by rewrite IH]. Qed.

Lemma append_nil_r s : s ++ "" = s.
Proof.
  induction s as [|c s IH]; [done |].
  change (String c (s ++ "") = String c s). by rewrite IH.
Qed.

Lemma append_inv_tail a b e : a ++ e = b ++ e -> a = b.
Proof.
  intros H. apply (f_equal list_ascii_of_string) in H.
  rewrite !list_ascii_of_string_app in H. apply app_inv_tail in H.
  rewrite <- (string_of_list_ascii_of_string a), H.
  apply string_of_list_ascii_of_string.
Qed.

Lemma numbered_inj base ext i j :
  numbered base ext i = numbered base ext j -> i = j.
Proof.
  unfold numbered. intros H.
  apply String.app_inj in H. injection H as H. apply (String.app_inj "") in H.
  apply append_inv_tail in H. by apply (inj pretty).
Qed.

Lemma numbered_truthy base ext i : Text.truthy (numbered base ext i) = true.
Proof. unfold numbered. by destruct base. Qed.



Lemma path_exists_false fs name :
  path_exists fs name = false -> fs !! name = None /\ name <> "".
Proof.
  unfold path_exists. intros [H1 H2]%orb_false_iff.
  apply bool_decide_eq_false_1 in H2. split.
  - by apply eq_None_not_Some.
  - intros ->. done.
Qed.

Lemma while_exists_Some fuel fs base ext filename i n :
  while_exists fuel fs base ext filename i = Some n ->
  path_exists fs n = false
  /\ (n = filename
      \/ path_exists fs filename = true
         /\ exists k, (i <= k)%nat /\ n = numbered base ext k
            /\ forall j, (i <= j < k)%nat -> path_exists fs (numbered base ext j) = true).
Proof.
  revert filename i. induction fuel as [|fuel IH]; intros filename i; simpl;
    destruct (path_exists fs filename) eqn:E; try done.
  - intros [= <-]. auto.
  - intros [Hfree [->|[Hi (k & Hk & -> & Hall)]]]%IH; (split; [done | right; split; [done |]]).
    + exists i. split; [lia |]. split; [done |]. intros j ?; lia.
    + exists k. split; [lia |]. split; [done |]. intros j Hj.
      destruct (decide (j = i)) as [->|]; [done |]. apply Hall. lia.
  - intros [= <-]. auto.
Qed.

Lemma while_exists_None fuel fs base ext filename i :
  while_exists fuel fs base ext filename i = None ->
  path_exists fs filename = true
  /\ forall j, (i <= j < i + fuel)%nat -> path_exists fs (numbered base ext j) = true.
Proof.
  revert filename i. induction fuel as [|fuel IH]; intros filename i; simpl;
    destruct (path_exists fs filename) eqn:E; try done.
  - intros _. split; [done |]. intros j ?; lia.
  - intros [Hi Hall]%IH. split; [done |]. intros j Hj.
    destruct (decide (j = i)) as [->|]; [done |]. apply Hall. lia.
Qed.

(** The loop of [save_image] ends: among [S (size fs)] numbered names one
    is free. *)
Lemma while_exists_terminates fs base ext filename :
  is_Some (while_exists (S (size fs)) fs base ext filename 1).
Proof.
  destruct (while_exists _ _ _ _ _ _) eqn:E; [eauto |].
  apply while_exists_None in E as [_ Hall].
  set (names := numbered base ext <$> seq 1 (S (size fs))).
  assert (NoDup names) as Hnd.
  { apply NoDup_fmap_2_strong; [| apply NoDup_seq].
    intros i j _ _. apply numbered_inj. }
  assert (names ⊆+ elements (dom fs)) as Hsub.
  { apply NoDup_submseteq; [done |]. intros x [j [-> Hj]]%list_elem_of_fmap.
    apply elem_of_seq in Hj. apply elem_of_elements, elem_of_dom.
    specialize (Hall j ltac:(lia)). unfold path_exists in Hall.
    rewrite numbered_truthy in Hall. simpl in Hall.
    by apply bool_decide_eq_true_1 in Hall. }
  apply submseteq_length in Hsub.
  unfold names in Hsub. rewrite length_fmap, length_seq in Hsub.
  change (length (elements (dom fs))) with (size (dom fs)) in Hsub.
  rewrite size_dom in Hsub. lia.
Qed.

Lemma splitext_app p base ext : splitext p = (base, ext) -> base ++ ext = p.
Proof.
  unfold splitext.
  assert (forall q b e, rsplit_dot q = Some (b, e) -> b ++ e = q) as Hsplit.
  { induction q as [|c q IH]; intros b e; simpl; [done |].
    destruct (rsplit_dot q) as [[b' e']|].
    - intros [= <- <-]. by rewrite <- (IH b' e' eq_refl).
    - destruct (is_dot c); [| done]. by intros [= <- <-]. }
  destruct (rsplit_dot p) as [[b e]|] eqn:E.
  - destruct (_ && _).
    + intros [= <- <-]. by apply Hsplit.
    + intros [= <- <-]. apply append_nil_r.
  - intros [= <- <-]. apply append_nil_r.
Qed.

Lemma truthy_strip s : Text.truthy (Text.strip s) = true -> Text.truthy s = true.
Proof. by destruct s. Qed.

Lemma save_image_named (f : FileStorage) fs base ext :
  Text.truthy (Text.strip (filename f)) = true ->
  splitext (secure_filename (filename f)) = (base, ext) ->
  exists n,
    save_image (Some f) fs = (Some n, <[n := stream f]> fs)
    /\ while_exists (S (size fs)) fs base ext (secure_filename (filename f)) 1 = Some n.
Proof.
  intros Hf Hsplit. unfold save_image.
  rewrite Hf, (truthy_strip _ Hf), Hsplit. simpl negb. simpl orb. cbv iota.
  destruct (while_exists_terminates fs base ext (secure_filename (filename f)))
    as [n Hn].
  exists n. by rewrite Hn.
Qed.


End UploadFacts.

(** ** Create *)

Section CreateFacts.
Context {RT : PyRuntime}.

Lemma form_item_Ok req key v : form_item req key = Ok v -> form req !! key = Some v.
Proof. unfold form_item. destruct (form req !! key); congruence. Qed.

Lemma form_item_Exit req key o : form_item req key = Exit o -> o = plain (Abort 400).
Proof. unfold form_item. destruct (form req !! key); congruence. Qed.

Lemma form_number_Ok {A} (conv : string -> option A) req key x txt :
  form_number conv req key = Ok x ->
  form req !! key = Some txt -> Text.truthy txt = true -> conv txt <> None.
Proof.
  unfold form_number. intros H Htxt Ht. rewrite Htxt, Ht in H.
  destruct (conv txt); congruence.
Qed.

Lemma form_number_Exit {A} (conv : string -> option A) req key o :
  form_number conv req key = Exit o -> o = plain (Raise "ValueError").
Proof.
  unfold form_number. destruct (form req !! key) as [v|]; [| congruence].
  destruct (Text.truthy v); [| congruence]. destruct (conv v); congruence.
Qed.

(** C3 (amended).  An authenticated create request in which a required
    field (title, location, property_type, sale_or_rent, contact) is
    missing from the form, or in which the non-empty text of area, price,
    rent or rooms does not convert to a number, fails -- with 400 or with
    an unhandled [ValueError] -- and persists nothing. *)
Theorem create_fails_without_row (req : Request) (st : State) :
  method req = POST ->
  is_Some (current_user req st) ->
  (exists key, key ∈ ["title"; "location"; "property_type"; "sale_or_rent"; "contact"]
               /\ form req !! key = None)
  \/ (exists key txt, form req !! key = Some txt /\ Text.truthy txt = true
        /\ (key ∈ ["area"; "price"; "rent"] /\ py_float txt = None
            \/ key = "rooms" /\ py_int txt = None)) ->
  exists o, add_property req st = (o, st)
            /\ (response o = Abort 400 \/ response o = Raise "ValueError")
            /\ flashed o = [].
Proof.
  intros Hpost [u Hu] Hbad.
  unfold add_property, login_required. rewrite Hu, Hpost. cbn [mbind result_bind].
  destruct (form_item req "title") as [title|o] eqn:E1;
    [| apply form_item_Exit in E1 as ->; eexists; split; [done | auto]].
  destruct (form_item req "location") as [location|o] eqn:E2;
    [| apply form_item_Exit in E2 as ->; eexists; split; [done | auto]].
  destruct (form_item req "property_type") as [property_type|o] eqn:E3;
    [| apply form_item_Exit in E3 as ->; eexists; split; [done | auto]].
  destruct (form_item req "sale_or_rent") as [sale_or_rent|o] eqn:E4;
    [| apply form_item_Exit in E4 as ->; eexists; split; [done | auto]].
  destruct (form_number py_float req "area") as [area|o] eqn:E5;
    [| apply form_number_Exit in E5 as ->; eexists; split; [done | auto]].
  destruct (form_number py_float req "price") as [price|o] eqn:E6;
    [| apply form_number_Exit in E6 as ->; eexists; split; [done | auto]].
  destruct (form_number py_float req "rent") as [rent|o] eqn:E7;
    [| apply form_number_Exit in E7 as ->; eexists; split; [done | auto]].
  destruct (form_number py_int req "rooms") as [rooms|o] eqn:E8;
    [| apply form_number_Exit in E8 as ->; eexists; split; [done | auto]].
  destruct (form_item req "contact") as [contact|o] eqn:E9;
    [| apply form_item_Exit in E9 as ->; eexists; split; [done | auto]].
  exfalso.
  apply form_item_Ok in E1, E2, E3, E4, E9.
  destruct Hbad as [(key & Hkey & Hnone)|(key & txt & Htxt & Ht & [[Hkey Hconv]|[-> Hconv]])].
  - repeat (apply elem_of_cons in Hkey as [->|Hkey]); [..| by apply elem_of_nil in Hkey];
      congruence.
  - repeat (apply elem_of_cons in Hkey as [->|Hkey]); [..| by apply elem_of_nil in Hkey].
    + by apply (form_number_Ok _ _ _ _ _ E5 Htxt Ht).
    + by apply (form_number_Ok _ _ _ _ _ E6 Htxt Ht).
    + by apply (form_number_Ok _ _ _ _ _ E7 Htxt Ht).
  - by apply (form_number_Ok _ _ _ _ _ E8 Htxt Ht).
Qed.

Lemma truthy_rstrip s : Text.truthy (Text.rstrip s) = negb (Text.forallb Text.is_space s).
Proof.
  induction s as [|c s IH]; [done |]. simpl.
  destruct (Text.rstrip s); simpl in IH.
  - apply (f_equal negb) in IH. rewrite negb_involutive in IH. simpl in IH.
    rewrite <- IH, andb_true_r. by destruct (Text.is_space c).
  - apply (f_equal negb) in IH. rewrite negb_involutive in IH. simpl in IH.
    by rewrite <- IH, andb_false_r.
Qed.

Lemma forallb_lstrip s :
  Text.forallb Text.is_space (Text.lstrip s) = Text.forallb Text.is_space s.
Proof.
  induction s as [|c s IH]; [done |]. simpl.
  destruct (Text.is_space c) eqn:E; [done |]. simpl. by rewrite E.
Qed.

Lemma truthy_strip_blank s :
  Text.truthy (Text.strip s) = negb (Text.forallb Text.is_space s).
Proof. unfold Text.strip. by rewrite truthy_rstrip, forallb_lstrip. Qed.

Lemma unquote_quote_char c rest :
  unquote_to_bytes (quote_char c ++ rest) = (utf8 c ++ unquote_to_bytes rest)%list.
Proof. destruct c as [[] [] [] [] [] [] [] []]; reflexivity. Qed.

Lemma decode_utf8_char c bytes :
  decode_utf8 (utf8 c ++ bytes) = String c <$> decode_utf8 bytes.
Proof. destruct c as [[] [] [] [] [] [] [] []]; reflexivity. Qed.

Lemma unquote_to_bytes_quote s :
  unquote_to_bytes (quote_plus s) = foldr (fun c acc => utf8 c ++ acc)%list [] (list_ascii_of_string s).
Proof.
  induction s as [|c s IH]; [done |].
  change (quote_plus (String c s)) with (quote_char c ++ quote_plus s).
  by rewrite unquote_quote_char, IH.
Qed.

Lemma unquote_quote_plus s : unquote_plus (quote_plus s) = Some s.
Proof.
  unfold unquote_plus. rewrite unquote_to_bytes_quote.
  induction s as [|c s IH]; [done |].
  simpl. by rewrite decode_utf8_char, IH.
Qed.

Lemma forallb_append f a b :
  Text.forallb f (a ++ b) = Text.forallb f a && Text.forallb f b.
Proof.
  induction a as [|x a IH]; [done |].
  change (f x && Text.forallb f (a ++ b) = f x && Text.forallb f a && Text.forallb f b).
  by rewrite IH, andb_assoc.
Qed.

Lemma quote_char_url_safe c : Text.forallb url_safe (quote_char c) = true.
Proof. destruct c as [[] [] [] [] [] [] [] []]; reflexivity. Qed.

Lemma quote_plus_url_safe s : Text.forallb url_safe (quote_plus s) = true.
Proof.
  induction s as [|c s IH]; [done |].
  change (quote_plus (String c s)) with (quote_char c ++ quote_plus s).
  by rewrite forallb_append, quote_char_url_safe, IH.
Qed.

(** C4 (amended).  The listing a create request persists has, when the
    supplied [gmap_link] is blank (absent, empty or whitespace only), a
    maps-search link ending in the percent-encoded location, and
    otherwise the supplied link with the surrounding whitespace
    stripped. *)
Theorem created_listing_gmap_link (req : Request) (st st' : State) (o : Outcome) :
  method req = POST ->
  add_property req st = (o, st') ->
  response o = Redirect "properties" None ->
  exists p location,
    listings st' = (listings st ++ [p])%list
    /\ form req !! "location" = Some location
    /\ Property.location p = location
    /\ (blank (form req !! "gmap_link") = true ->
        Property.gmap_link p
        = "https://www.google.com/maps/search/?api=1&query=" ++ quote_plus location
        /\ unquote_plus (quote_plus location) = Some location
        /\ Text.forallb url_safe (quote_plus location) = true)
    /\ (forall g, form req !! "gmap_link" = Some g -> blank (Some g) = false ->
        Property.gmap_link p = Text.strip g).
Proof.
  intros Hpost Hadd Hresp. revert Hadd.
  unfold add_property, login_required, current_user_id.
  destruct (current_user req st) as [u|]; [| by intros [= <- <-]].
  rewrite Hpost. cbn [mbind result_bind].
  destruct (form_item req "title") as [title|o1] eqn:E1;
    [| apply form_item_Exit in E1 as ->; by intros [= <- <-]].
  destruct (form_item req "location") as [location|o1] eqn:E2;
    [| apply form_item_Exit in E2 as ->; by intros [= <- <-]].
  destruct (form_item req "property_type") as [property_type|o1] eqn:E3;
    [| apply form_item_Exit in E3 as ->; by intros [= <- <-]].
  destruct (form_item req "sale_or_rent") as [sale_or_rent|o1] eqn:E4;
    [| apply form_item_Exit in E4 as ->; by intros [= <- <-]].
  destruct (form_number py_float req "area") as [area|o1] eqn:E5;
    [| apply form_number_Exit in E5 as ->; by intros [= <- <-]].
  destruct (form_number py_float req "price") as [price|o1] eqn:E6;
    [| apply form_number_Exit in E6 as ->; by intros [= <- <-]].
  destruct (form_number py_float req "rent") as [rent|o1] eqn:E7;
    [| apply form_number_Exit in E7 as ->; by intros [= <- <-]].
  destruct (form_number py_int req "rooms") as [rooms|o1] eqn:E8;
    [| apply form_number_Exit in E8 as ->; by intros [= <- <-]].
  destruct (form_item req "contact") as [contact|o1] eqn:E9;
    [| apply form_item_Exit in E9 as ->; by intros [= <- <-]].
  destruct (save_image _ _) as [image_filename fs]. simpl.
  destruct (storable rooms); [| by intros [= <- <-]].
  intros [= <- <-]. simpl.
  eexists _, location. split; [reflexivity |].
  split; [by apply form_item_Ok |]. split; [reflexivity |].
  unfold get_default, blank. simpl. split.
  - intros Hblank.
    split; [| split; [apply unquote_quote_plus | apply quote_plus_url_safe]].
    destruct (form req !! "gmap_link") as [g|].
    + by rewrite truthy_strip_blank, Hblank.
    + reflexivity.
  - intros g -> Hg. by rewrite truthy_strip_blank, Hg.
Qed.

End CreateFacts.

(** ** Registration *)

Section RegisterFacts.
Context {RT : PyRuntime}.

Lemma filter_email_absent email (us : list User.t) :
  List.existsb (fun u => String.eqb (User.email u) email) us = false ->
  List.filter (fun u => String.eqb (User.email u) email) us = [].
Proof.
  induction us as [|u us IH]; simpl; [done |].
  intros [Hu Hus]%orb_false_elim. rewrite Hu. auto.
Qed.

(** A registration that succeeds appends one user whose email is the
    normalised form text and was not in the table before. *)
Lemma register_success (req : Request) (st st1 : State) (o : Outcome) (e : string) :
  method req = POST ->
  register req st = (o, st1) ->
  response o = Redirect "login" None ->
  form req !! "email" = Some e ->
  exists u,
    st1 = {| users := users st ++ [u]; listings := listings st; uploads := uploads st |}
    /\ User.email u = Text.lower (Text.strip e)
    /\ User.role u = get_default (form req) "role" "owner"
    /\ Text.truthy (User.email u) = true
    /\ List.existsb (fun v => String.eqb (User.email v) (User.email u)) (users st) = false.
Proof.
  intros Hpost Hreg Hresp He. revert Hreg.
  unfold register, form_item. rewrite Hpost, He.
  destruct (form req !! "name") as [n|]; [| by intros [= <- <-]].
  destruct (form req !! "password") as [pw|]; [| by intros [= <- <-]].
  cbn [fmap result_fmap mbind result_bind run].
  destruct (negb _ || negb (Text.truthy (Text.lower (Text.strip e))) || negb _) eqn:Hreq;
    [by intros [= <- <-] |].
  destruct (List.existsb _ (users st)) eqn:Hdup; [by intros [= <- <-] |].
  intros [= <- <-]. eexists. split; [reflexivity |]. simpl.
  apply orb_false_elim in Hreq as [[_ Hemail]%orb_false_elim _].
  apply negb_false_iff in Hemail. done.
Qed.

(** C8.  After a successful registration, a second complete
    registration whose email normalises (strip, lower) to the same text
    is answered with the conflict notice, creates no row, and the first
    user is the only row with that email. *)
Theorem duplicate_email_conflicts (r1 r2 : Request) (st st1 : State) (o1 : Outcome)
    (e1 e2 n2 p2 : string) :
  method r1 = POST -> method r2 = POST ->
  register r1 st = (o1, st1) ->
  response o1 = Redirect "login" None ->
  form r1 !! "email" = Some e1 ->
  form r2 !! "email" = Some e2 ->
  Text.lower (Text.strip e1) = Text.lower (Text.strip e2) ->
  form r2 !! "name" = Some n2 -> Text.truthy (Text.strip n2) = true ->
  form r2 !! "password" = Some p2 -> Text.truthy p2 = true ->
  register r2 st1
  = (flash_then "Email already registered." "warning" (Redirect "register" None), st1)
  /\ exists u,
       users st1 = (users st ++ [u])%list
       /\ List.filter (fun v => String.eqb (User.email v) (Text.lower (Text.strip e2)))
            (users st1) = [u].
Proof.
  intros Hpost1 Hpost2 Hreg Hresp He1 He2 Hnorm Hn2 Hn2t Hp2 Hp2t.
  destruct (register_success r1 st st1 o1 e1 Hpost1 Hreg Hresp He1)
    as (u & -> & Hemail & _ & Ht & Hfresh).
  rewrite <- Hnorm, <- Hemail. split.
  - unfold register, form_item. rewrite Hpost2, Hn2, He2, Hp2.
    cbn [fmap result_fmap mbind result_bind run users].
    rewrite <- Hnorm, <- Hemail, Hn2t, Ht, Hp2t. simpl negb. simpl orb. cbv iota.
    rewrite existsb_app. simpl. rewrite String.eqb_refl.
    by rewrite orb_true_r.
  - exists u. split; [done |]. simpl.
    rewrite List.filter_app, filter_email_absent by done.
    simpl. by rewrite String.eqb_refl.
Qed.

End RegisterFacts.

(** ** The statements on the small site *)

Section OnTheSite.
Import Site.

Example strip_example : Text.strip "  Lagos " = "Lagos".
Proof. reflexivity. Qed.

Example splitext_example : splitext "house.jpg" = ("house", ".jpg").
Proof. reflexivity. Qed.

Example build_gmaps_link_example :
  build_gmaps_link "Ikeja, Lagos & co"
  = "https://www.google.com/maps/search/?api=1&query=Ikeja%2C+Lagos+%26+co".
Proof. reflexivity. Qed.

(** The scenario of the specification: the flat is found by type and
    rent bounds, and no land is for rent at that price. *)
Example search_scenario :
  @properties_query rt
    (list_to_map [("type", "house"); ("min_rent", "400"); ("max_rent", "600")])
    (listings st0) = [flat]
  /\ @properties_query rt {[ "type" := "land" ]} [flat] = [].
Proof. split; vm_compute; reflexivity. Qed.

Example search_no_filters : @properties_query rt ∅ (listings st0) = [plot; flat].
Proof. vm_compute. reflexivity. Qed.

Example two_uploads_example :
  let house data := Some {| filename := "house.jpg"; stream := data |} in
  let '(n1, fs1) := @save_image rt (house photo) ∅ in
  let '(n2, fs2) := @save_image rt (house photo') fs1 in
  n1 = Some "house.jpg" /\ n2 = Some "house_1.jpg"
  /\ fs2 !! "house.jpg" = Some photo /\ fs2 !! "house_1.jpg" = Some photo'.
Proof. vm_compute. auto. Qed.

(** *** C1 *)



(** *** C2 *)

Lemma null_field_never_matches_witness :
  Property.rent plot = None
  /\ @get_float rt search_args "min_rent" = Some 400%float
  /\ ~ In plot (@properties_query rt search_args (listings st0)).
Proof.
  split; [reflexivity |]. split; [reflexivity |].
  apply (@null_field_never_matches rt search_args (listings st0) plot).
  right; left. split; [reflexivity |]. left. exists 400%float. reflexivity.
Defined.

(** *** C10 *)

Lemma unparsable_number_is_absent_witness :
  let args : gmap string string := list_to_map [("type", "house"); ("min_price", "cheap")] in
  args !! "min_price" = Some "cheap"
  /\ @py_float rt "cheap" = None
  /\ @properties_query rt args (listings st0)
     = @properties_query rt (delete "min_price" args) (listings st0).
Proof.
  intros args. split; [reflexivity |]. split; [reflexivity |].
  apply (@unparsable_number_is_absent rt args (listings st0) "min_price" "cheap");
    [reflexivity |].
  left. split; [| reflexivity]. apply elem_of_cons. left. reflexivity.
Defined.

(** *** C3 *)

(** An empty title, an empty contact and a negative price are persisted. *)
Lemma create_accepts_empty_and_negative :
  @add_property rt
    (request POST (Some 1)
       [("title", ""); ("location", "Ikeja"); ("property_type", "house");
        ("sale_or_rent", "sale"); ("price", "-5"); ("contact", "")])
    st0
  = (flash_then "Property added!" "success" (Redirect "properties" None),
     {| users := users st0;
        listings := [flat; plot;
          Property.mk 3 "" None "Ikeja" "house" "sale" (Some (-5)%float) None None None
            "" None "https://www.google.com/maps/search/?api=1&query=Ikeja" 1];
        uploads := uploads st0 |}).
Proof. vm_compute. reflexivity. Qed.

Lemma create_fails_without_row_witness :
  let req := request POST (Some 1) (("rooms", "two") :: listing_form) in
  method req = POST
  /\ @py_int rt "two" = None
  /\ exists o, @add_property rt req st0 = (o, st0)
       /\ (response o = Abort 400 \/ response o = Raise "ValueError")
       /\ flashed o = [].
Proof.
  intros req. split; [reflexivity |]. split; [reflexivity |].
  apply (@create_fails_without_row rt req st0); [reflexivity | |].
  - exists owner. reflexivity.
  - right. exists "rooms", "two".
    split; [reflexivity |]. split; [reflexivity |]. right. split; reflexivity.
Defined.

(** *** C4 *)

(** A supplied link is stored stripped, not as given. *)
Lemma gmap_link_not_stored_as_given :
  let given := " https://maps.example/x " in
  let st' := snd (@add_property rt
                    (request POST (Some 1) (("gmap_link", given) :: listing_form)) st0) in
  blank (Some given) = false
  /\ Property.gmap_link <$> last (listings st') = Some "https://maps.example/x"
  /\ "https://maps.example/x" <> given.
Proof. vm_compute. repeat split; done. Qed.

Lemma created_listing_gmap_link_witness :
  let req := request POST (Some 1) listing_form in
  let r := @add_property rt req st0 in
  method req = POST
  /\ response (fst r) = Redirect "properties" None
  /\ exists p location,
       listings (snd r) = (listings st0 ++ [p])%list
       /\ form req !! "location" = Some location
       /\ Property.location p = location
       /\ (blank (form req !! "gmap_link") = true ->
           Property.gmap_link p
           = "https://www.google.com/maps/search/?api=1&query=" ++ quote_plus location
           /\ unquote_plus (quote_plus location) = Some location
           /\ Text.forallb url_safe (quote_plus location) = true)
       /\ (forall g, form req !! "gmap_link" = Some g -> blank (Some g) = false ->
           Property.gmap_link p = Text.strip g).
Proof.
  intros req r. split; [reflexivity |]. split; [reflexivity |].
  apply (@created_listing_gmap_link rt req st0 (snd r) (fst r));
    [reflexivity | | reflexivity].
  apply surjective_pairing.
Defined.

(** *** C5 *)

Lemma edit_by_other_user_forbidden_witness :
  let req := request POST (Some 2) listing_form in
  current_user req st0 = Some visitor
  /\ get_property 1 (listings st0) = Some flat
  /\ Property.owner_id flat <> User.id visitor
  /\ @edit_property rt 1 req st0 = (plain (Abort 403), st0).
Proof.
  intros req. split; [reflexivity |]. split; [reflexivity |].
  split; [discriminate |].
  apply (@edit_by_other_user_forbidden rt 1 req st0 visitor flat);
    [reflexivity | reflexivity | discriminate].
Defined.

(** *** C6 *)

Lemma delete_by_owner_witness :
  let req := request POST (Some 1) [] in
  current_user req st0 = Some owner
  /\ exists fs,
       delete_property 1 req st0
       = (flash_then "Property deleted." "danger" (Redirect "properties" None),
          {| users := users st0; listings := delete_row 1 (listings st0); uploads := fs |})
       /\ get_property 1 (delete_row 1 (listings st0)) = None
       /\ (forall q, In q (delete_row 1 (listings st0))
                     <-> In q (listings st0) /\ Property.id q <> 1)
       /\ Property.image_filename flat = Some "house.jpg"
       /\ uploads st0 !! "house.jpg" = Some photo
       /\ fs = delete "house.jpg" (uploads st0)
       /\ fs !! "house.jpg" = None.
Proof.
  intros req. split; [reflexivity |].
  destruct (delete_by_owner 1 req st0 owner flat eq_refl eq_refl eq_refl)
    as (fs & Hdel & Hgone & Hrows & Himage & _).
  destruct (Himage "house.jpg" eq_refl ltac:(discriminate)) as (Hfs & Hnone & _).
  exists fs. split; [exact Hdel |]. split; [exact Hgone |]. split; [exact Hrows |].
  split; [reflexivity |]. split; [reflexivity |]. split; [exact Hfs | exact Hnone].
Defined.

(** *** C7 *)


(** *** C8 *)

Lemma duplicate_email_conflicts_witness :
  let r1 := request POST None
              [("name", "Eve"); ("email", " Eve@Example.com "); ("password", "pw")] in
  let r2 := request POST None
              [("name", "Eva"); ("email", "EVE@example.com"); ("password", "pw2")] in
  let r := @register rt r1 st0 in
  response (fst r) = Redirect "login" None
  /\ Text.lower (Text.strip " Eve@Example.com ") = Text.lower (Text.strip "EVE@example.com")
  /\ @register rt r2 (snd r)
     = (flash_then "Email already registered." "warning" (Redirect "register" None), snd r)
  /\ exists u,
       users (snd r) = (users st0 ++ [u])%list
       /\ List.filter
            (fun v => String.eqb (User.email v) (Text.lower (Text.strip "EVE@example.com")))
            (users (snd r)) = [u].
Proof.
  intros r1 r2 r. split; [reflexivity |]. split; [reflexivity |].
  apply (@duplicate_email_conflicts rt r1 r2 st0 (snd r) (fst r)
           " Eve@Example.com " "EVE@example.com" "Eva" "pw2");
    reflexivity.
Defined.

(** *** C9 *)

(** C9.  The role of the form is stored as it comes: a registration
    with the role [admin] creates a user whose role is neither [owner]
    nor [customer]; without a role in the form the user is an [owner]. *)
Lemma register_keeps_unlisted_role :
  users (snd (@register rt
                (request POST None
                   [("name", "Eve"); ("email", "eve@example.com");
                    ("password", "pw"); ("role", "admin")])
                st0))
  = [owner; visitor; User.mk 3 "Eve" "eve@example.com" "plain$pw" "admin"]
  /\ users (snd (@register rt
                (request POST None
                   [("name", "Eve"); ("email", "eve@example.com"); ("password", "pw")])
                st0))
  = [owner; visitor; User.mk 3 "Eve" "eve@example.com" "plain$pw" "owner"].
Proof. split; vm_compute; reflexivity. Qed.

End OnTheSite.

(** ** More on the search and the front page *)

Section BrowseFacts.
Context {RT : PyRuntime}.

#[local] Instance id_desc_is_total : Total id_desc.
Proof. intros p q. unfold id_desc. lia. Qed.

#[local] Instance id_desc_is_trans : Transitive id_desc.
Proof. intros p q r. unfold id_desc. lia. Qed.

Lemma order_by_id_desc_sorted rows : StronglySorted id_desc (order_by_id_desc rows).
Proof. apply StronglySorted_merge_sort; apply _. Qed.

Lemma order_by_id_desc_perm rows : order_by_id_desc rows ≡ₚ rows.
Proof. apply merge_sort_Permutation. Qed.

Lemma filter_sublist {A} (f : A -> bool) l : sublist (List.filter f l) l.
Proof.
  induction l as [|x l IH]; simpl; [constructor |].
  destruct (f x); by constructor.
Qed.

Lemma filter_if_sublist {A} (supplied : option A) cond l :
  sublist (filter_if supplied cond l) l.
Proof. destruct supplied; simpl; [apply filter_sublist | done]. Qed.

Lemma NoDup_submseteq_inv {A} (l k : list A) : l ⊆+ k -> NoDup k -> NoDup l.
Proof.
  intros [k' Hk]%submseteq_Permutation Hnd. rewrite Hk in Hnd.
  by apply NoDup_app in Hnd as [? _].
Qed.

(** X1.  The front page shows at most six listings, all from the
    table, newest first, and every listing it leaves out is no newer
    than any it shows. *)
Theorem index_shows_latest_six (req : Request) (st : State) :
  exists shown,
    index req st = (plain (Render "index.html" shown), st)
    /\ length shown = Nat.min 6 (length (listings st))
    /\ StronglySorted id_desc shown
    /\ shown ⊆+ listings st
    /\ forall p q, p ∈ shown -> q ∈ listings st -> q ∉ shown ->
         Property.id q <= Property.id p.
Proof.
  unfold index. eexists. split; [reflexivity |].
  set (l := order_by_id_desc (listings st)).
  assert (StronglySorted id_desc (take 6 l ++ drop 6 l)) as Hs
    by (rewrite take_drop; apply order_by_id_desc_sorted).
  split.
  { rewrite length_take. unfold l. by rewrite order_by_id_desc_perm. }
  split; [by apply StronglySorted_app_1_l in Hs |].
  split.
  { rewrite <- (order_by_id_desc_perm (listings st)). fold l.
    apply sublist_submseteq, sublist_take. }
  intros p q Hp Hq Hnot.
  rewrite <- (order_by_id_desc_perm (listings st)) in Hq. fold l in Hq.
  rewrite <- (take_drop 6 l) in Hq. apply elem_of_app in Hq as [Hq|Hq]; [done |].
  apply (StronglySorted_app_1_elem_of _ _ _ _ _ Hs Hp Hq).
Qed.

(** X2.  A search never invents or repeats a row: whatever the
    parameters, wildcards included, the result is sorted by id descending
    and is a sub-multiset of the table, so ids stay distinct when they
    are distinct in the table. *)
Theorem search_rows_come_from_table (args : gmap string string)
    (table : list Property.t) :
  properties_query args table ⊆+ table
  /\ StronglySorted id_desc (properties_query args table)
  /\ (NoDup (Property.id <$> table) ->
      NoDup (Property.id <$> properties_query args table)).
Proof.
  assert (properties_query args table ⊆+ table) as Hsub.
  { unfold properties_query. cbv zeta. rewrite order_by_id_desc_perm.
    apply sublist_submseteq.
    repeat (etrans; [apply filter_if_sublist |]). done. }
  split; [done |]. split; [apply order_by_id_desc_sorted |].
  intros Hnd. eapply NoDup_submseteq_inv; [| done].
  by apply fmap_submseteq.
Qed.

(** X3.  A request that carries none of the ten recognised parameters
    returns every listing, newest first. *)
Theorem search_without_filters (args : gmap string string) (table : list Property.t) :
  Forall (fun key => args !! key = None)
    ["location"; "type"; "mode"; "min_price"; "max_price"; "min_rent";
     "max_rent"; "min_area"; "max_area"; "rooms"] ->
  properties_query args table ≡ₚ table
  /\ StronglySorted id_desc (properties_query args table).
Proof.
  intros H. split; [| apply order_by_id_desc_sorted].
  repeat (apply Forall_cons in H as [? H]).
  unfold properties_query, get_float, get_int, get_default. cbv zeta.
  repeat match goal with Hk : args !! _ = None |- _ => rewrite Hk; clear Hk end.
  simpl. apply order_by_id_desc_perm.
Qed.

(** X4.  A location text that is blank once stripped, and an empty type
    or mode text, impose no constraint: the search answers as if the
    parameter were not sent. *)
Theorem blank_text_filter_is_absent (args : gmap string string)
    (table : list Property.t) (key txt : string) :
  args !! key = Some txt ->
  (key = "location" /\ Text.strip txt = "")
  \/ (key ∈ ["type"; "mode"] /\ txt = "") ->
  properties_query args table = properties_query (delete key args) table.
Proof.
  intros Hargs [[-> Hblank]|[Hkey ->]].
  - unfold properties_query, get_float, get_int, get_default.
    rewrite lookup_delete_eq, ?lookup_delete_ne by done.
    rewrite Hargs, Hblank. reflexivity.
  - repeat (apply elem_of_cons in Hkey as [->|Hkey]); [..| by apply elem_of_nil in Hkey];
      unfold properties_query, get_float, get_int, get_default;
      rewrite lookup_delete_eq, ?lookup_delete_ne by done;
      rewrite Hargs; reflexivity.
Qed.

End BrowseFacts.

Section CaseFacts.
Context {RT : PyRuntime}.

Lemma sql_lower_char_space c : Text.is_space (Text.sql_lower_char c) = Text.is_space c.
Proof. destruct c as [[] [] [] [] [] [] [] []]; reflexivity. Qed.

Lemma lstrip_sql_lower s : Text.lstrip (Text.sql_lower s) = Text.sql_lower (Text.lstrip s).
Proof.
  induction s as [|c s IH]; [done |]. simpl.
  rewrite sql_lower_char_space. by destruct (Text.is_space c).
Qed.

Lemma rstrip_sql_lower s : Text.rstrip (Text.sql_lower s) = Text.sql_lower (Text.rstrip s).
Proof.
  induction s as [|c s IH]; [done |]. simpl.
  fold (Text.sql_lower s). rewrite IH, sql_lower_char_space.
  destruct (Text.rstrip s); simpl; [| done]. by destruct (Text.is_space c).
Qed.

Lemma strip_sql_lower s : Text.strip (Text.sql_lower s) = Text.sql_lower (Text.strip s).
Proof. unfold Text.strip. by rewrite lstrip_sql_lower, rstrip_sql_lower. Qed.

Lemma truthy_sql_lower s : Text.truthy (Text.sql_lower s) = Text.truthy s.
Proof. by destruct s. Qed.

Lemma ilike_pattern_case col a b :
  Text.sql_lower a = Text.sql_lower b ->
  Text.ilike col ("%" ++ a ++ "%") = Text.ilike col ("%" ++ b ++ "%").
Proof.
  intros H. unfold Text.ilike.
  change (Text.sql_lower ("%" ++ a ++ "%")) with (String "%" (Text.sql_lower (a ++ "%"))).
  change (Text.sql_lower ("%" ++ b ++ "%")) with (String "%" (Text.sql_lower (b ++ "%"))).
  unfold Text.sql_lower at 1 3. rewrite !map_app.
  fold (Text.sql_lower a). fold (Text.sql_lower b). by rewrite H.
Qed.

(** X5.  The location filter ignores the case of the letters A-Z: two
    location texts that differ only in that case select the same rows. *)
Theorem search_location_ignores_case (args : gmap string string)
    (table : list Property.t) (q q' : string) :
  args !! "location" = Some q ->
  Text.sql_lower q' = Text.sql_lower q ->
  properties_query (<["location" := q']> args) table = properties_query args table.
Proof.
  intros Hargs Hcase.
  assert (Text.sql_lower (Text.strip q') = Text.sql_lower (Text.strip q)) as Hs
    by (by rewrite <- !strip_sql_lower, Hcase).
  unfold properties_query, get_float, get_int, get_default.
  rewrite lookup_insert_eq, ?lookup_insert_ne by done. rewrite Hargs. cbv zeta.
  do 10 f_equal.
  unfold nonempty.
  rewrite <- (truthy_sql_lower (Text.strip q')), Hs, truthy_sql_lower.
  destruct (Text.truthy (Text.strip q)); [| done]. simpl.
  apply filter_ext. intros p. by apply ilike_pattern_case.
Qed.
End CaseFacts.

(** ** What the writing routes do *)

Section WriteFacts.
Context {RT : PyRuntime}.

Lemma current_user_Some req st u :
  current_user req st = Some u ->
  In u (users st) /\ session_user_id req = Some (User.id u) /\ User.id u <> 0.
Proof.
  unfold current_user. destruct (session_user_id req) as [uid|]; [| done].
  destruct (uid =? 0) eqn:E; [done |]. intros [Hin Hid]%find_some.
  apply Z.eqb_eq in Hid. apply Z.eqb_neq in E. subst uid. auto.
Qed.

Lemma form_number_value {A} (conv : string -> option A) req key x :
  form_number conv req key = Ok x -> x = (form req !! key ≫= nonempty) ≫= conv.
Proof.
  unfold form_number, nonempty. destruct (form req !! key) as [v|]; simpl.
  - destruct (Text.truthy v); simpl; [| congruence].
    destruct (conv v); congruence.
  - congruence.
Qed.

(** What [add_property] does: nothing, an upload saved before a commit
    that fails, or one row appended. *)
Lemma add_property_cases req st o st' :
  add_property req st = (o, st') ->
  (st' = st /\ response o <> Redirect "properties" None)
  \/ (exists image fs,
        response o = Raise "OverflowError"
        /\ save_image (files req !! "image") (uploads st) = (image, fs)
        /\ st' = {| users := users st; listings := listings st; uploads := fs |})
  \/ exists u p fs,
       current_user req st = Some u /\ method req = POST
       /\ o = flash_then "Property added!" "success" (Redirect "properties" None)
       /\ st' = {| users := users st; listings := listings st ++ [p]; uploads := fs |}
       /\ save_image (files req !! "image") (uploads st) = (Property.image_filename p, fs)
       /\ Property.id p = next_id (Property.id <$> listings st)
       /\ Property.owner_id p = User.id u
       /\ form req !! "title" = Some (Property.title p)
       /\ form req !! "location" = Some (Property.location p)
       /\ form req !! "property_type" = Some (Property.property_type p)
       /\ form req !! "sale_or_rent" = Some (Property.sale_or_rent p)
       /\ form req !! "contact" = Some (Property.contact p)
       /\ Property.description p = form req !! "description"
       /\ Property.area p = ((form req !! "area" ≫= nonempty) ≫= py_float) ≫= sql_real
       /\ Property.price p = ((form req !! "price" ≫= nonempty) ≫= py_float) ≫= sql_real
       /\ Property.rent p = ((form req !! "rent" ≫= nonempty) ≫= py_float) ≫= sql_real
       /\ Property.rooms p = (form req !! "rooms" ≫= nonempty) ≫= py_int
       /\ storable (Property.rooms p) = true.
Proof.
  unfold add_property, login_required, current_user_id.
  destruct (current_user req st) as [u|] eqn:Hu; [| intros [= <- <-]; by left].
  destruct (method req); [intros [= <- <-]; by left |].
  cbn [mbind result_bind].
  destruct (form_item req "title") as [title|o1] eqn:E1;
    [| apply form_item_Exit in E1 as ->; intros [= <- <-]; by left].
  destruct (form_item req "location") as [location|o1] eqn:E2;
    [| apply form_item_Exit in E2 as ->; intros [= <- <-]; by left].
  destruct (form_item req "property_type") as [property_type|o1] eqn:E3;
    [| apply form_item_Exit in E3 as ->; intros [= <- <-]; by left].
  destruct (form_item req "sale_or_rent") as [sale_or_rent|o1] eqn:E4;
    [| apply form_item_Exit in E4 as ->; intros [= <- <-]; by left].
  destruct (form_number py_float req "area") as [area|o1] eqn:E5;
    [| apply form_number_Exit in E5 as ->; intros [= <- <-]; by left].
  destruct (form_number py_float req "price") as [price|o1] eqn:E6;
    [| apply form_number_Exit in E6 as ->; intros [= <- <-]; by left].
  destruct (form_number py_float req "rent") as [rent|o1] eqn:E7;
    [| apply form_number_Exit in E7 as ->; intros [= <- <-]; by left].
  destruct (form_number py_int req "rooms") as [rooms|o1] eqn:E8;
    [| apply form_number_Exit in E8 as ->; intros [= <- <-]; by left].
  destruct (form_item req "contact") as [contact|o1] eqn:E9;
    [| apply form_item_Exit in E9 as ->; intros [= <- <-]; by left].
  destruct (save_image _ _) as [image fs] eqn:Hsave. simpl.
  destruct (storable rooms) eqn:Hfits; intros [= <- <-]; right;
    [right | left; by exists image, fs].
  apply form_item_Ok in E1, E2, E3, E4, E9.
  apply form_number_value in E5, E6, E7, E8.
  eexists u, _, fs. repeat split; simpl; congruence.
Qed.

End WriteFacts.

Section WriteFacts2.
Context {RT : PyRuntime}.

Lemma truthy_strip_and s :
  Text.truthy s && Text.truthy (Text.strip s) = Text.truthy (Text.strip s).
Proof. by destruct s. Qed.

(** What [edit_property] does: nothing, an upload saved before a
    commit that fails, or the row is replaced. *)
Lemma edit_property_cases pid req st o st' :
  edit_property pid req st = (o, st') ->
  (st' = st /\ response o <> Redirect "property_detail" (Some pid))
  \/ (exists fs,
        response o = Raise "OverflowError"
        /\ st' = {| users := users st; listings := listings st; uploads := fs |}
        /\ (fs = uploads st
            \/ exists f image, save_image (Some f) (uploads st) = (image, fs)))
  \/ exists u p p' fs,
       current_user req st = Some u /\ method req = POST
       /\ get_property pid (listings st) = Some p
       /\ Property.owner_id p = User.id u
       /\ o = flash_then "Property updated!" "success"
                (Redirect "property_detail" (Some pid))
       /\ st' = {| users := users st; listings := update_row p' (listings st);
                   uploads := fs |}
       /\ Property.id p' = pid
       /\ Property.owner_id p' = Property.owner_id p
       /\ ((Property.image_filename p' = Property.image_filename p /\ fs = uploads st
            /\ forall f, files req !! "image" = Some f ->
                 Text.truthy (Text.strip (filename f)) = false)
           \/ exists f, files req !! "image" = Some f
                /\ Text.truthy (Text.strip (filename f)) = true
                /\ save_image (Some f) (uploads st) = (Property.image_filename p', fs))
       /\ form req !! "title" = Some (Property.title p')
       /\ form req !! "location" = Some (Property.location p')
       /\ form req !! "property_type" = Some (Property.property_type p')
       /\ form req !! "sale_or_rent" = Some (Property.sale_or_rent p')
       /\ form req !! "contact" = Some (Property.contact p')
       /\ Property.description p' = form req !! "description"
       /\ Property.area p' = ((form req !! "area" ≫= nonempty) ≫= py_float) ≫= sql_real
       /\ Property.price p' = ((form req !! "price" ≫= nonempty) ≫= py_float) ≫= sql_real
       /\ Property.rent p' = ((form req !! "rent" ≫= nonempty) ≫= py_float) ≫= sql_real
       /\ Property.rooms p' = (form req !! "rooms" ≫= nonempty) ≫= py_int
       /\ Property.gmap_link p'
          = (if Text.truthy (Text.strip (get_default (form req) "gmap_link" ""))
             then Text.strip (get_default (form req) "gmap_link" "")
             else build_gmaps_link (Property.location p')).
Proof.
  unfold edit_property, login_required, get_or_404, current_user_id.
  destruct (current_user req st) as [u|] eqn:Hu; [| intros [= <- <-]; by left].
  cbn [mbind result_bind].
  destruct (get_property pid (listings st)) as [p|] eqn:Hp; [| intros [= <- <-]; by left].
  cbn [mbind result_bind].
  destruct (Property.owner_id p =? User.id u) eqn:Hown; [| intros [= <- <-]; by left].
  apply Z.eqb_eq in Hown. destruct (get_property_Some _ _ _ Hp) as [_ Hid].
  cbn [negb]. cbv iota.
  destruct (method req); [intros [= <- <-]; by left |].
  destruct (form_item req "title") as [title|o1] eqn:E1;
    [| apply form_item_Exit in E1 as ->; intros [= <- <-]; by left].
  destruct (form_item req "location") as [location|o1] eqn:E2;
    [| apply form_item_Exit in E2 as ->; intros [= <- <-]; by left].
  destruct (form_item req "property_type") as [property_type|o1] eqn:E3;
    [| apply form_item_Exit in E3 as ->; intros [= <- <-]; by left].
  destruct (form_item req "sale_or_rent") as [sale_or_rent|o1] eqn:E4;
    [| apply form_item_Exit in E4 as ->; intros [= <- <-]; by left].
  destruct (form_number py_float req "area") as [area|o1] eqn:E5;
    [| apply form_number_Exit in E5 as ->; intros [= <- <-]; by left].
  destruct (form_number py_float req "price") as [price|o1] eqn:E6;
    [| apply form_number_Exit in E6 as ->; intros [= <- <-]; by left].
  destruct (form_number py_float req "rent") as [rent|o1] eqn:E7;
    [| apply form_number_Exit in E7 as ->; intros [= <- <-]; by left].
  destruct (form_number py_int req "rooms") as [rooms|o1] eqn:E8;
    [| apply form_number_Exit in E8 as ->; intros [= <- <-]; by left].
  destruct (form_item req "contact") as [contact|o1] eqn:E9;
    [| apply form_item_Exit in E9 as ->; intros [= <- <-]; by left].
  apply form_item_Ok in E1, E2, E3, E4, E9.
  apply form_number_value in E5, E6, E7, E8.
  cbn [mbind result_bind run].
  destruct (files req !! "image") as [f|] eqn:Hf.
  - rewrite truthy_strip_and.
    destruct (Text.truthy (Text.strip (filename f))) eqn:Ht.
    + destruct (save_image (Some f) (uploads st)) as [image fs] eqn:Hsave.
      destruct (storable rooms); intros [= <- <-]; right;
        [right | left; exists fs; repeat split; try done; right; by exists f, image].
      eexists u, p, _, fs. rewrite Hid.
      repeat split; simpl; try congruence. right. by exists f.
    + destruct (storable rooms); intros [= <- <-]; right;
        [right | left; exists (uploads st); repeat split; try done; by left].
      eexists u, p, _, _. rewrite Hid.
      repeat split; simpl; try congruence. left. repeat split; try done.
      by intros f' [= <-].
  - destruct (storable rooms); intros [= <- <-]; right;
      [right | left; exists (uploads st); repeat split; try done; by left].
    eexists u, p, _, _. rewrite Hid.
    repeat split; simpl; try congruence. left. repeat split; done.
Qed.

(** What [delete_property] does: nothing, or the row and its image go. *)
Lemma delete_property_cases pid req st o st' :
  delete_property pid req st = (o, st') ->
  (st' = st /\ response o <> Redirect "properties" None)
  \/ exists u p fs,
       current_user req st = Some u
       /\ get_property pid (listings st) = Some p
       /\ Property.owner_id p = User.id u
       /\ o = flash_then "Property deleted." "danger" (Redirect "properties" None)
       /\ st' = {| users := users st; listings := delete_row pid (listings st);
                   uploads := fs |}
       /\ fs = match Property.image_filename p ≫= nonempty with
               | Some image => delete image (uploads st)
               | None => uploads st
               end.
Proof.
  unfold delete_property, login_required, get_or_404, current_user_id.
  destruct (current_user req st) as [u|] eqn:Hu; [| intros [= <- <-]; by left].
  cbn [mbind result_bind].
  destruct (get_property pid (listings st)) as [p|] eqn:Hp; [| intros [= <- <-]; by left].
  cbn [mbind result_bind].
  destruct (Property.owner_id p =? User.id u) eqn:Hown; [| intros [= <- <-]; by left].
  apply Z.eqb_eq in Hown. destruct (get_property_Some _ _ _ Hp) as [_ Hid].
  cbn [negb run]. cbv iota. rewrite Hid.
  intros [= <- <-]. right. eexists u, p, _. repeat split; try done.
  destruct (Property.image_filename p ≫= nonempty) as [image|]; [| done].
  unfold os_remove. destruct (uploads st !! image) eqn:E; [done |].
  symmetry. by apply delete_id.
Qed.

(** What [register] does: nothing, or one user appended. *)
Lemma register_cases req st o st' :
  register req st = (o, st') ->
  (st' = st /\ response o <> Redirect "login" None)
  \/ exists u n e pw,
       method req = POST
       /\ form req !! "name" = Some n /\ form req !! "email" = Some e
       /\ form req !! "password" = Some pw
       /\ o = flash_then "Registration successful. Please log in." "success"
                (Redirect "login" None)
       /\ st' = {| users := users st ++ [u]; listings := listings st;
                   uploads := uploads st |}
       /\ u = User.mk (next_id (User.id <$> users st)) (Text.strip n)
                (Text.lower (Text.strip e)) (generate_password_hash pw)
                (get_default (form req) "role" "owner")
       /\ Text.truthy (Text.strip n) = true
       /\ Text.truthy (Text.lower (Text.strip e)) = true
       /\ Text.truthy pw = true
       /\ Forall (fun v => User.email v <> Text.lower (Text.strip e)) (users st).
Proof.
  unfold register, form_item.
  destruct (method req); [intros [= <- <-]; by left |].
  destruct (form req !! "name") as [n|]; [| intros [= <- <-]; by left].
  destruct (form req !! "email") as [e|]; [| intros [= <- <-]; by left].
  destruct (form req !! "password") as [pw|]; [| intros [= <- <-]; by left].
  cbn [fmap result_fmap mbind result_bind run].
  destruct (Text.truthy (Text.strip n)) eqn:Hn; [| intros [= <- <-]; by left].
  destruct (Text.truthy (Text.lower (Text.strip e))) eqn:He; [| intros [= <- <-]; by left].
  destruct (Text.truthy pw) eqn:Hpw; [| intros [= <- <-]; by left].
  cbn [negb orb]. cbv iota.
  destruct (List.existsb _ (users st)) eqn:Hdup; [intros [= <- <-]; by left |].
  intros [= <- <-]. right. eexists _, n, e, pw. repeat split; try done.
  apply Forall_forall. intros v Hv%list_elem_of_In Heq.
  assert (List.existsb (fun u => String.eqb (User.email u) (Text.lower (Text.strip e)))
            (users st) = true) as Hex; [| congruence].
  apply existsb_exists. exists v. split; [done |]. by apply String.eqb_eq.
Qed.

End WriteFacts2.

(** ** Who may write *)

Section GateFacts.
Context {RT : PyRuntime}.

Lemma find_user_absent uid (us : list User.t) :
  Forall (fun u => User.id u <> uid) us ->
  List.find (fun u => User.id u =? uid) us = None.
Proof.
  induction 1 as [|u us Hu _ IH]; simpl; [done |].
  apply Z.eqb_neq in Hu. by rewrite Hu.
Qed.

Lemma unauthenticated_exits pid req st :
  current_user req st = None ->
  add_property req st = (login_notice, st)
  /\ edit_property pid req st = (login_notice, st)
  /\ delete_property pid req st = (login_notice, st).
Proof.
  intros H. unfold add_property, edit_property, delete_property, login_required.
  by rewrite H.
Qed.

(** X6.  Without a usable identity -- no [user_id] in the session, the
    id 0, or an id no user has -- create, edit and delete all redirect to
    the login page with the notice and leave the state as it was. *)
Theorem unauthenticated_mutation_rejected (pid : Z) (req : Request) (st : State) :
  session_user_id req = None
  \/ session_user_id req = Some 0
  \/ (exists uid, session_user_id req = Some uid
        /\ Forall (fun u => User.id u <> uid) (users st)) ->
  add_property req st = (login_notice, st)
  /\ edit_property pid req st = (login_notice, st)
  /\ delete_property pid req st = (login_notice, st).
Proof.
  intros H. apply unauthenticated_exits. unfold current_user.
  destruct H as [->|[->|(uid & -> & Hnone)]]; [done | done |].
  destruct (uid =? 0); [done |]. by apply find_user_absent.
Qed.

(** X7.  A delete attempted by an authenticated user who does not own
    the listing is answered with 403; no row and no file is removed. *)
Theorem delete_by_other_user_forbidden (pid : Z) (req : Request) (st : State)
    (b : User.t) (p : Property.t) :
  current_user req st = Some b ->
  get_property pid (listings st) = Some p ->
  Property.owner_id p <> User.id b ->
  delete_property pid req st = (plain (Abort 403), st).
Proof.
  intros Hb Hp Hne.
  unfold delete_property, login_required, get_or_404, current_user_id.
  rewrite Hb, Hp. simpl.
  apply Z.eqb_neq in Hne. by rewrite Hne.
Qed.



(** X9.  Once its owner has deleted a listing, its id answers 404
    everywhere: on the detail page, and on a further edit or delete. *)
Theorem deleted_listing_is_gone (pid : Z) (req req' : Request) (st st' : State)
    (o : Outcome) :
  delete_property pid req st = (o, st') ->
  response o = Redirect "properties" None ->
  property_detail pid req' st' = (plain (Abort 404), st')
  /\ (is_Some (current_user req' st') ->
      edit_property pid req' st' = (plain (Abort 404), st')
      /\ delete_property pid req' st' = (plain (Abort 404), st')).
Proof.
  intros Hdel Hresp.
  apply delete_property_cases in Hdel as [[_ Hne]|(u & p & fs & _ & _ & _ & _ & -> & _)];
    [done |].
  pose proof (get_property_delete_row pid (listings st)) as Hnone.
  unfold property_detail, edit_property, delete_property, login_required, get_or_404.
  cbn [listings]. rewrite Hnone. split; [done |]. intros [v ->]. done.
Qed.

Lemma truthy_lower s : Text.truthy (Text.lower s) = Text.truthy s.
Proof. by destruct s. Qed.

(** X10.  A registration whose name or email is blank once stripped, or
    whose password is empty, is turned back with the notice that all
    fields are required, and creates no user. *)
Theorem register_requires_all_fields (req : Request) (st : State) (n e pw : string) :
  method req = POST ->
  form req !! "name" = Some n ->
  form req !! "email" = Some e ->
  form req !! "password" = Some pw ->
  Text.strip n = "" \/ Text.strip e = "" \/ pw = "" ->
  register req st
  = (flash_then "All fields are required." "danger" (Redirect "register" None), st).
Proof.
  intros Hpost Hn He Hpw Hblank.
  unfold register, form_item. rewrite Hpost, Hn, He, Hpw.
  cbn [fmap result_fmap mbind result_bind run]. rewrite truthy_lower.
  destruct Hblank as [->|[->| ->]]; simpl; [done | |].
  - by rewrite orb_true_r.
  - by rewrite orb_true_r.
Qed.

End GateFacts.

(** ** Uploads and creation *)

Section StoreFacts.
Context {RT : PyRuntime}.
Implicit Types fs : gmap string (list Byte.byte).

Lemma next_id_fresh ids : 1 <= next_id ids /\ Forall (fun i => i < next_id ids) ids.
Proof.
  unfold next_id. induction ids as [|i ids [IH1 IH2]]; simpl; [split; [lia | constructor] |].
  split; [lia |]. constructor; [lia |].
  eapply Forall_impl; [exact IH2 |]. simpl. lia.
Qed.


(** What [save_image] does: nothing, or one write under a free name. *)
Lemma save_image_cases file fs r fs' :
  save_image file fs = (r, fs') ->
  (r = None /\ fs' = fs)
  \/ exists f n, file = Some f
       /\ Text.truthy (Text.strip (filename f)) = true
       /\ r = Some n /\ fs !! n = None /\ fs' = <[n := stream f]> fs.
Proof.
  unfold save_image. destruct file as [f|]; [| intros [= <- <-]; by left].
  destruct (Text.truthy (filename f)); [| intros [= <- <-]; by left].
  destruct (Text.truthy (Text.strip (filename f))) eqn:Ht; [| intros [= <- <-]; by left].
  cbn [negb orb]. cbv iota. destruct (splitext _) as [base ext].
  destruct (while_exists _ _ _ _ _ _) as [n|] eqn:Hw; [| intros [= <- <-]; by left].
  intros [= <- <-]. right. exists f, n.
  apply while_exists_Some in Hw as [Hfree _].
  apply path_exists_false in Hfree as [Hnone _]. done.
Qed.

Lemma save_image_stores (f : FileStorage) fs :
  Text.truthy (Text.strip (filename f)) = true ->
  exists n, save_image (Some f) fs = (Some n, <[n := stream f]> fs) /\ fs !! n = None.
Proof.
  intros Ht. destruct (splitext (secure_filename (filename f))) as [base ext] eqn:Hs.
  destruct (save_image_named f fs base ext Ht Hs) as (n & Hsave & Hw).
  exists n. split; [done |].
  apply while_exists_Some in Hw as [Hfree _].
  by apply path_exists_false in Hfree as [Hnone _].
Qed.

(** X11.  [save_image] stores a file exactly when the upload has a
    non-blank filename; it then writes the bytes under a name that was
    free, and in no case changes or removes a file already there. *)
Theorem save_image_keeps_files (file : option FileStorage) fs :
  let '(r, fs') := save_image file fs in
  (forall m data, fs !! m = Some data -> fs' !! m = Some data)
  /\ (is_Some r <-> exists f, file = Some f /\ Text.truthy (Text.strip (filename f)) = true)
  /\ (r = None -> fs' = fs)
  /\ (forall n, r = Some n ->
        fs !! n = None /\ exists f, file = Some f /\ fs' = <[n := stream f]> fs).
Proof.
  destruct (save_image file fs) as [r fs'] eqn:Hsave.
  pose proof (save_image_cases _ _ _ _ Hsave) as Hcases.
  split; [| split; [| split]].
  - intros m data Hm.
    destruct Hcases as [[_ ->]|(f & n & _ & _ & _ & Hfree & ->)]; [done |].
    rewrite lookup_insert_ne; [done | congruence].
  - split.
    + intros [n ->].
      destruct Hcases as [[? _]|(f & n' & -> & Ht & _)]; [done | eauto].
    + intros (f & -> & Ht).
      destruct (save_image_stores f fs Ht) as (n & Hn & _).
      rewrite Hn in Hsave. injection Hsave as <- _. eauto.
  - intros ->. by destruct Hcases as [[_ ->]|(f & n & _ & _ & ? & _)].
  - intros n ->.
    destruct Hcases as [[? _]|(f & n' & -> & _ & [= <-] & Hfree & ->)]; [done |].
    eauto.
Qed.


(** X13.  The image sent with a successful create request can be
    fetched back: the new listing names a file that was not there before
    and now holds exactly the uploaded bytes, and every file served
    before is served unchanged. *)
Theorem uploaded_image_is_served (req : Request) (st st' : State) (o : Outcome)
    (f : FileStorage) :
  add_property req st = (o, st') ->
  response o = Redirect "properties" None ->
  files req !! "image" = Some f ->
  Text.truthy (Text.strip (filename f)) = true ->
  exists p n,
    listings st' = (listings st ++ [p])%list
    /\ Property.image_filename p = Some n
    /\ uploaded_file n st = NotFound
    /\ uploaded_file n st' = SendFile (stream f)
    /\ forall m data, uploaded_file m st = SendFile data ->
         uploaded_file m st' = SendFile data.
Proof.
  intros Hadd Hresp Hf Ht.
  apply add_property_cases in Hadd
    as [[_ Hne]|[(image & fs & Hr & _)|(u & p & fs & _ & _ & _ & -> & Hsave & _)]];
    [done | congruence |].
  rewrite Hf in Hsave.
  destruct (save_image_stores f (uploads st) Ht) as (n & Hn & Hfree).
  rewrite Hn in Hsave. injection Hsave as Himg <-.
  exists p, n. unfold uploaded_file. cbn [uploads listings].
  split; [done |]. split; [done |].
  rewrite Hfree, lookup_insert_eq. split; [done |]. split; [done |].
  intros m data Hm. rewrite lookup_insert_ne; [done |].
  intros <-. by rewrite Hfree in Hm.
Qed.

End StoreFacts.

(** ** Editing *)

Section EditFacts.
Context {RT : PyRuntime}.

Lemma update_row_ids p' table :
  Property.id <$> update_row p' table = Property.id <$> table.
Proof.
  unfold update_row. induction table as [|r table IH]; [done |].
  cbn [List.map fmap list_fmap]. f_equal; [| exact IH].
  destruct (Property.id r =? Property.id p') eqn:E; [| done].
  apply Z.eqb_eq in E. done.
Qed.

Lemma update_row_In p' table q :
  In q (update_row p' table) <->
  (q = p' /\ Exists (fun r => Property.id r = Property.id p') table)
  \/ (In q table /\ Property.id q <> Property.id p').
Proof.
  unfold update_row. induction table as [|r table IH]; simpl.
  - split; [done |]. intros [[_ H%Exists_nil]|[[] _]]. done.
  - rewrite IH, Exists_cons.
    destruct (Property.id r =? Property.id p') eqn:E.
    + apply Z.eqb_eq in E. split.
      * intros [<-|[[-> ?]|[? ?]]]; auto. 
      * intros [[-> _]|[[<-|?] ?]]; auto. done.
    + apply Z.eqb_neq in E. split.
      * intros [<-|[[-> ?]|[? ?]]]; auto.
      * intros [[-> [?|?]]|[[<-|?] ?]]; auto. done.
Qed.

Lemma get_property_update_row p' table p :
  get_property (Property.id p') table = Some p ->
  get_property (Property.id p') (update_row p' table) = Some p'.
Proof.
  unfold get_property, update_row.
  induction table as [|r table IH]; simpl; [done |].
  destruct (Property.id r =? Property.id p') eqn:E; simpl.
  - by rewrite Z.eqb_refl.
  - by rewrite E.
Qed.

(** X14.  An edit by the owner that succeeds replaces the listing under
    its id and nothing else: the id and the owner stay, the table keeps
    the same ids in the same order, every other listing is as before, and
    no file is removed from the upload folder -- not even the image the
    listing named before, and without a new upload the image reference
    stays.  A blank map link is synthesized anew from the location just
    sent. *)
Theorem edit_replaces_row (pid : Z) (req : Request) (st st' : State) (o : Outcome) :
  edit_property pid req st = (o, st') ->
  response o = Redirect "property_detail" (Some pid) ->
  exists p p',
    get_property pid (listings st) = Some p
    /\ get_property pid (listings st') = Some p'
    /\ users st' = users st
    /\ Property.id p' = pid
    /\ Property.owner_id p' = Property.owner_id p
    /\ Property.id <$> listings st' = Property.id <$> listings st
    /\ (forall q, Property.id q <> pid -> In q (listings st') <-> In q (listings st))
    /\ (forall m data, uploads st !! m = Some data -> uploads st' !! m = Some data)
    /\ ((forall f, files req !! "image" = Some f ->
           Text.truthy (Text.strip (filename f)) = false) ->
        Property.image_filename p' = Property.image_filename p
        /\ uploads st' = uploads st)
    /\ form req !! "title" = Some (Property.title p')
    /\ form req !! "location" = Some (Property.location p')
    /\ form req !! "property_type" = Some (Property.property_type p')
    /\ form req !! "sale_or_rent" = Some (Property.sale_or_rent p')
    /\ form req !! "contact" = Some (Property.contact p')
    /\ Property.gmap_link p'
       = (if Text.truthy (Text.strip (get_default (form req) "gmap_link" ""))
          then Text.strip (get_default (form req) "gmap_link" "")
          else build_gmaps_link (Property.location p')).
Proof.
  intros Hedit Hresp.
  apply edit_property_cases in Hedit
    as [[_ Hne]|[(fs & Hr & _)|
                 (u & p & p' & fs & _ & _ & Hp & _ & _ & -> & Hid & Hown & Himg
                  & Ht & Hl & Hty & Hm & Hc & _ & _ & _ & _ & _ & Hlink)]];
    [done | congruence |].
  exists p, p'. cbn [users listings uploads]. subst pid.
  split; [done |]. split; [by eapply get_property_update_row |].
  split; [done |]. split; [done |]. split; [done |].
  split; [apply update_row_ids |].
  split.
  { intros q Hq. rewrite update_row_In. split; [| auto].
    intros [[-> _]|[? _]]; done. }
  split.
  { intros m data Hm'.
    destruct Himg as [(_ & -> & _)|(f & _ & _ & Hsave)]; [done |].
    apply save_image_cases in Hsave as [[_ ->]|(f' & n & _ & _ & _ & Hfree & ->)];
      [done |].
    rewrite lookup_insert_ne; [done | congruence]. }
  split; [| done].
  intros Hnone. destruct Himg as [(? & ? & _)|(f & Hf & Htrue & _)]; [done |].
  rewrite (Hnone f Hf) in Htrue. done.
Qed.

End EditFacts.

(** ** What every sequence of requests keeps *)

Section KeptFacts.
Context {RT : PyRuntime}.

Lemma fold_serve_all (P : State -> Prop) :
  (forall route req st, P st -> P (serve route req st)) ->
  forall log st, P st -> P (serve_all log st).
Proof.
  intros Hstep log. unfold serve_all.
  induction log as [|[route req] log IH]; intros st Hst; simpl; [done |].
  apply IH. by apply Hstep.
Qed.

Lemma NoDup_snoc_fresh (ids : list Z) : NoDup ids -> NoDup (ids ++ [next_id ids]).
Proof.
  intros Hnd. apply NoDup_app. split; [done |]. split; [| apply NoDup_singleton].
  intros i Hi ->%list_elem_of_singleton.
  destruct (next_id_fresh ids) as [_ Hfresh].
  rewrite Forall_forall in Hfresh. specialize (Hfresh _ Hi). lia.
Qed.

Lemma serve_users (route : Route) req st :
  users (serve route req st) = users st
  \/ exists u, users (serve route req st) = (users st ++ [u])%list
       /\ User.id u = next_id (User.id <$> users st)
       /\ Forall (fun v => User.email v <> User.email u) (users st).
Proof.
  destruct route as [| |pid|pid]; unfold serve.
  - destruct (register req st) as [o st'] eqn:E.
    apply register_cases in E
      as [[-> _]|(u & n & e & pw & _ & _ & _ & _ & _ & -> & -> & _ & _ & _ & Hfresh)];
      [by left |].
    right. eexists. split; [reflexivity |]. split; done.
  - destruct (add_property req st) as [o st'] eqn:E.
    apply add_property_cases in E
      as [[-> _]|[(image & fs & _ & _ & ->)|(u & p & fs & _ & _ & _ & -> & _)]];
      by left.
  - destruct (edit_property pid req st) as [o st'] eqn:E.
    apply edit_property_cases in E
      as [[-> _]|[(fs & _ & -> & _)|(u & p & p' & fs & _ & _ & _ & _ & _ & -> & _)]];
      by left.
  - destruct (delete_property pid req st) as [o st'] eqn:E.
    apply delete_property_cases in E as [[-> _]|(u & p & fs & _ & _ & _ & _ & -> & _)];
      by left.
Qed.

Lemma serve_users_unique (route : Route) req st :
  users_unique st -> users_unique (serve route req st).
Proof.
  intros [Hids Hemails]. unfold users_unique.
  destruct (serve_users route req st) as [->|(u & -> & Hid & Hfresh)]; [done |].
  rewrite !fmap_app. cbn [fmap list_fmap]. split.
  - rewrite Hid. by apply NoDup_snoc_fresh.
  - apply NoDup_app. split; [done |]. split; [| apply NoDup_singleton].
    intros e [v [-> Hv]]%list_elem_of_fmap Heq%list_elem_of_singleton.
    rewrite Forall_forall in Hfresh. by apply (Hfresh v).
Qed.

(** X15.  Whatever requests are served, no two users come to share an
    id or an email. *)
Theorem requests_keep_users_unique (log : list (Route * Request)) (st : State) :
  users_unique st -> users_unique (serve_all log st).
Proof. apply fold_serve_all. intros route req st'. apply serve_users_unique. Qed.

Lemma delete_row_ids_sublist pid table :
  sublist (Property.id <$> delete_row pid table) (Property.id <$> table).
Proof. unfold delete_row. apply fmap_sublist, filter_sublist. Qed.

Lemma serve_listings_unique (route : Route) req st :
  listings_unique st -> listings_unique (serve route req st).
Proof.
  unfold listings_unique. intros Hnd.
  destruct route as [| |pid|pid]; unfold serve.
  - destruct (register req st) as [o st'] eqn:E.
    apply register_cases in E
      as [[-> _]|(u & n & e & pw & _ & _ & _ & _ & _ & -> & _)]; done.
  - destruct (add_property req st) as [o st'] eqn:E.
    apply add_property_cases in E
      as [[-> _]|[(image & fs & _ & _ & ->)|(u & p & fs & _ & _ & _ & -> & _ & Hid & _)]];
      [done | done |].
    cbn [snd listings]. rewrite fmap_app. cbn [fmap list_fmap].
    rewrite Hid. by apply NoDup_snoc_fresh.
  - destruct (edit_property pid req st) as [o st'] eqn:E.
    apply edit_property_cases in E
      as [[-> _]|[(fs & _ & -> & _)|(u & p & p' & fs & _ & _ & _ & _ & _ & -> & _)]];
      [done | done |].
    cbn [snd listings]. by rewrite update_row_ids.
  - destruct (delete_property pid req st) as [o st'] eqn:E.
    apply delete_property_cases in E as [[-> _]|(u & p & fs & _ & _ & _ & _ & -> & _)];
      [done |].
    cbn [snd listings]. eapply sublist_NoDup; [exact Hnd | apply delete_row_ids_sublist].
Qed.

(** X16.  Whatever requests are served, no two listings come to share
    an id. *)
Theorem requests_keep_listing_ids_unique (log : list (Route * Request)) (st : State) :
  listings_unique st -> listings_unique (serve_all log st).
Proof. apply fold_serve_all. intros route req st'. apply serve_listings_unique. Qed.

Lemma owner_exists_mono (us us' : list User.t) p :
  (forall u, In u us -> In u us') ->
  Exists (fun u => User.id u = Property.owner_id p) us ->
  Exists (fun u => User.id u = Property.owner_id p) us'.
Proof.
  intros Hsub [u [Hu Hid]]%Exists_exists. apply Exists_exists.
  exists u. split; [| done]. apply list_elem_of_In, Hsub. by apply list_elem_of_In.
Qed.

Lemma serve_owners_exist (route : Route) req st :
  owners_exist st -> owners_exist (serve route req st).
Proof.
  unfold owners_exist. intros Hown.
  destruct route as [| |pid|pid]; unfold serve.
  - destruct (register req st) as [o st'] eqn:E.
    apply register_cases in E
      as [[-> _]|(u & n & e & pw & _ & _ & _ & _ & _ & -> & _)]; [done |].
    cbn [snd listings users]. eapply Forall_impl; [exact Hown |].
    intros p. apply owner_exists_mono. intros v Hv. apply in_or_app. by left.
  - destruct (add_property req st) as [o st'] eqn:E.
    apply add_property_cases in E
      as [[-> _]|[(image & fs & _ & _ & ->)|
                  (u & p & fs & Hu & _ & _ & -> & _ & _ & Howner & _)]];
      [done | done |].
    cbn [snd listings users]. apply Forall_app. split; [done |].
    apply Forall_singleton, Exists_exists. exists u.
    apply current_user_Some in Hu as [Hin _]. split; [by apply list_elem_of_In | done].
  - destruct (edit_property pid req st) as [o st'] eqn:E.
    apply edit_property_cases in E
      as [[-> _]|[(fs & _ & -> & _)|
                  (u & p & p' & fs & _ & _ & Hp & _ & _ & -> & _ & Howner & _)]];
      [done | done |].
    cbn [snd listings users]. rewrite Forall_forall in Hown.
    apply Forall_forall. intros q Hq%list_elem_of_In.
    apply update_row_In in Hq as [[-> _]|[Hq _]].
    + rewrite Howner. apply Hown, list_elem_of_In.
      by apply get_property_Some in Hp as [? _].
    + by apply Hown, list_elem_of_In.
  - destruct (delete_property pid req st) as [o st'] eqn:E.
    apply delete_property_cases in E as [[-> _]|(u & p & fs & _ & _ & _ & _ & -> & _)];
      [done |].
    cbn [snd listings users]. rewrite Forall_forall in Hown.
    apply Forall_forall. intros q Hq%list_elem_of_In.
    apply delete_row_In in Hq as [Hq _]. by apply Hown, list_elem_of_In.
Qed.

(** X17.  Whatever requests are served, every listing's [owner_id]
    remains the id of an existing user. *)
Theorem requests_keep_owners (log : list (Route * Request)) (st : State) :
  owners_exist st -> owners_exist (serve_all log st).
Proof. apply fold_serve_all. intros route req st'. apply serve_owners_exist. Qed.

End KeptFacts.

Section ImageFacts.
Context {RT : PyRuntime}.
Implicit Types fs : gmap string (list Byte.byte).

Lemma get_property_split pid table p :
  NoDup (Property.id <$> table) ->
  get_property pid table = Some p ->
  exists l1 l2,
    table = (l1 ++ p :: l2)%list /\ Property.id p = pid
    /\ Forall (fun r => Property.id r <> pid) l1
    /\ Forall (fun r => Property.id r <> pid) l2.
Proof.
  unfold get_property. induction table as [|r table IH]; [done |].
  cbn [fmap list_fmap List.find]. intros [Hr Hnd]%NoDup_cons.
  destruct (Property.id r =? pid) eqn:E.
  - intros [= ->]. apply Z.eqb_eq in E. exists [], table.
    split; [done |]. split; [done |]. split; [constructor |].
    apply Forall_forall. intros q Hq Heq. apply Hr, list_elem_of_fmap.
    exists q. split; [congruence | done].
  - intros H. destruct (IH Hnd H) as (l1 & l2 & -> & Hid & H1 & H2).
    apply Z.eqb_neq in E. exists (r :: l1), l2.
    split; [done |]. split; [done |]. split; [by constructor | done].
Qed.

Lemma update_row_other p' l :
  Forall (fun r => Property.id r <> Property.id p') l -> update_row p' l = l.
Proof.
  unfold update_row. induction 1 as [|r l Hr _ IH]; simpl; [done |].
  apply Z.eqb_neq in Hr. by rewrite Hr, IH.
Qed.

Lemma update_row_split p' l1 p l2 :
  Property.id p = Property.id p' ->
  Forall (fun r => Property.id r <> Property.id p') l1 ->
  Forall (fun r => Property.id r <> Property.id p') l2 ->
  update_row p' (l1 ++ p :: l2) = (l1 ++ p' :: l2)%list.
Proof.
  intros Hid H1 H2.
  pose proof (update_row_other p' l1 H1) as E1.
  pose proof (update_row_other p' l2 H2) as E2.
  unfold update_row in *. rewrite List.map_app. simpl.
  apply Z.eqb_eq in Hid. by rewrite Hid, E1, E2.
Qed.

Lemma delete_row_other pid l :
  Forall (fun r => Property.id r <> pid) l -> delete_row pid l = l.
Proof.
  unfold delete_row. induction 1 as [|r l Hr _ IH]; simpl; [done |].
  apply Z.eqb_neq in Hr. by rewrite Hr, IH.
Qed.

Lemma delete_row_split pid l1 p l2 :
  Property.id p = pid ->
  Forall (fun r => Property.id r <> pid) l1 ->
  Forall (fun r => Property.id r <> pid) l2 ->
  delete_row pid (l1 ++ p :: l2) = (l1 ++ l2)%list.
Proof.
  intros Hid H1 H2.
  pose proof (delete_row_other pid l1 H1) as E1.
  pose proof (delete_row_other pid l2 H2) as E2.
  unfold delete_row in *. rewrite List.filter_app. simpl.
  apply Z.eqb_eq in Hid. by rewrite Hid, E1, E2.
Qed.

Lemma stored_not_free fs (names : list string) n :
  Forall (fun m => is_Some (fs !! m)) names -> fs !! n = None -> n ∉ names.
Proof.
  intros Hall Hn Hin. rewrite Forall_forall in Hall.
  specialize (Hall n Hin). rewrite Hn in Hall. by destruct Hall.
Qed.

Lemma stored_insert fs (names : list string) n data :
  Forall (fun m => is_Some (fs !! m)) names ->
  Forall (fun m => is_Some (<[n := data]> fs !! m)) names.
Proof.
  intros Hall. eapply Forall_impl; [exact Hall |].
  intros m Hm. simpl. rewrite lookup_insert_is_Some.
  destruct (decide (n = m)); auto.
Qed.

Lemma stored_delete fs (names : list string) n :
  Forall (fun m => is_Some (fs !! m)) names -> n ∉ names ->
  Forall (fun m => is_Some (delete n fs !! m)) names.
Proof.
  intros Hall Hn. rewrite Forall_forall in *. intros m Hm.
  rewrite lookup_delete_ne; [by apply Hall |]. intros ->. done.
Qed.

Lemma images_insert_snoc fs (names : list string) image fs' :
  Forall (fun m => is_Some (fs !! m)) names -> NoDup names ->
  (image = None /\ fs' = fs
   \/ exists n data, image = Some n /\ fs !! n = None /\ fs' = <[n := data]> fs) ->
  Forall (fun m => is_Some (fs' !! m)) (names ++ option_list image)
  /\ NoDup (names ++ option_list image).
Proof.
  intros Hall Hnd [[-> ->]|(n & data & -> & Hfree & ->)]; simpl.
  - by rewrite app_nil_r.
  - pose proof (stored_not_free _ _ _ Hall Hfree) as Hnot. split.
    + apply Forall_app. split; [by apply stored_insert |].
      apply Forall_singleton. rewrite lookup_insert_eq. eauto.
    + apply NoDup_app. split; [done |]. split; [| apply NoDup_singleton].
      intros m Hm ->%list_elem_of_singleton. done.
Qed.

Lemma images_replace fs (a c : list string) old image fs' :
  Forall (fun m => is_Some (fs !! m)) (a ++ old ++ c) -> NoDup (a ++ old ++ c) ->
  (image = None /\ fs' = fs
   \/ exists n data, image = Some n /\ fs !! n = None /\ fs' = <[n := data]> fs) ->
  Forall (fun m => is_Some (fs' !! m)) (a ++ option_list image ++ c)
  /\ NoDup (a ++ option_list image ++ c).
Proof.
  intros Hall Hnd Himg.
  assert (Forall (fun m => is_Some (fs !! m)) (a ++ c)) as Hall'.
  { rewrite !Forall_app in *. tauto. }
  assert (NoDup (a ++ c)) as Hnd'.
  { eapply sublist_NoDup; [exact Hnd |].
    apply sublist_app; [done |]. by apply sublist_inserts_l. }
  destruct Himg as [[-> ->]|(n & data & -> & Hfree & ->)]; simpl; [done |].
  pose proof (stored_not_free _ _ _ Hall' Hfree) as Hnot.
  split.
  - apply Forall_app in Hall' as [Ha Hc].
    apply Forall_app. split; [by apply stored_insert |].
    apply Forall_cons. split; [| by apply stored_insert].
    rewrite lookup_insert_eq. eauto.
  - apply NoDup_app in Hnd' as (Ha & Hac & Hc).
    apply NoDup_app. split; [done |]. split.
    + intros m Hm [->|Hm']%elem_of_cons; [| by apply (Hac m)].
      apply Hnot, elem_of_app. by left.
    + apply NoDup_cons. split; [| done].
      intros Hn. apply Hnot, elem_of_app. by right.
Qed.

(** A file saved without a row changing leaves the images as they were. *)
Lemma images_after_save fs file image fs' (names : list string) :
  save_image file fs = (image, fs') ->
  Forall (fun m => is_Some (fs !! m)) names /\ NoDup names ->
  Forall (fun m => is_Some (fs' !! m)) names /\ NoDup names.
Proof.
  intros Hsave [Hall Hnd]. split; [| done].
  apply save_image_cases in Hsave as [[_ ->]|(f & n & _ & _ & _ & _ & ->)]; [done |].
  by apply stored_insert.
Qed.

Lemma serve_images_stored (route : Route) req st :
  listings_unique st -> images_stored st -> images_stored (serve route req st).
Proof.
  unfold listings_unique, images_stored. intros Huniq [Hall Hnd].
  destruct route as [| |pid|pid]; unfold serve.
  - destruct (register req st) as [o st'] eqn:E.
    apply register_cases in E
      as [[-> _]|(u & n & e & pw & _ & _ & _ & _ & _ & -> & _)]; done.
  - destruct (add_property req st) as [o st'] eqn:E.
    apply add_property_cases in E
      as [[-> _]|[(image & fs & _ & Hsave & ->)|(u & p & fs & _ & _ & _ & -> & Hsave & _)]];
      [done | by apply (images_after_save (uploads st) _ _ _ _ Hsave) |].
    cbn [snd listings uploads]. rewrite omap_app. cbn [omap list_omap].
    replace (match Property.image_filename p with Some y => [y] | None => [] end)
      with (option_list (Property.image_filename p))
      by (by destruct (Property.image_filename p)).
    apply (images_insert_snoc (uploads st)); [done | done |].
    apply save_image_cases in Hsave as [[? ?]|(f & n & _ & _ & ? & ? & ?)]; [by left |].
    right. by exists n, (stream f).
  - destruct (edit_property pid req st) as [o st'] eqn:E.
    apply edit_property_cases in E
      as [[-> _]|[(fs & _ & -> & [->|(f & image & Hsave)])|
                  (u & p & p' & fs & _ & _ & Hp & _ & _ & -> & Hid & _ & Himg & _)]];
      [done | done | by apply (images_after_save (uploads st) _ _ _ _ Hsave) |].
    cbn [snd listings uploads].
    destruct (get_property_split _ _ _ Huniq Hp) as (l1 & l2 & Hl & Hidp & H1 & H2).
    rewrite Hl in *. subst pid.
    rewrite update_row_split by (by rewrite ?Hid).
    rewrite !omap_app in *. cbn [omap list_omap] in *.
    replace (match Property.image_filename p' with Some y => y :: omap Property.image_filename l2 | None => omap Property.image_filename l2 end)
      with (option_list (Property.image_filename p') ++ omap Property.image_filename l2)%list
      by (by destruct (Property.image_filename p')).
    replace (match Property.image_filename p with Some y => y :: omap Property.image_filename l2 | None => omap Property.image_filename l2 end)
      with (option_list (Property.image_filename p) ++ omap Property.image_filename l2)%list
      in Hall, Hnd by (by destruct (Property.image_filename p)).
    destruct Himg as [(-> & -> & _)|(f & _ & _ & Hsave)]; [done |].
    eapply (images_replace (uploads st)); [exact Hall | exact Hnd |].
    apply save_image_cases in Hsave as [[? ?]|(f' & n & _ & _ & ? & ? & ?)]; [by left |].
    right. by exists n, (stream f').
  - destruct (delete_property pid req st) as [o st'] eqn:E.
    apply delete_property_cases in E
      as [[-> _]|(u & p & fs & _ & Hp & _ & _ & -> & ->)]; [done |].
    cbn [snd listings uploads].
    destruct (get_property_split _ _ _ Huniq Hp) as (l1 & l2 & Hl & Hidp & H1 & H2).
    rewrite Hl in *. rewrite delete_row_split by done.
    rewrite !omap_app in *. cbn [omap list_omap] in *.
    destruct (Property.image_filename p) as [image|]; simpl; [| done].
    apply NoDup_app in Hnd as (Ha & Hac & Hc). apply NoDup_cons in Hc as [Hc1 Hc2].
    assert (NoDup (omap Property.image_filename l1 ++ omap Property.image_filename l2)).
    { apply NoDup_app. split; [done |]. split; [| done].
      intros m Hm Hm'. apply (Hac m Hm). by right. }
    apply Forall_app in Hall as [Hall1 [_ Hall2]%Forall_cons].
    assert (Forall (fun m => is_Some (uploads st !! m))
              (omap Property.image_filename l1 ++ omap Property.image_filename l2)).
    { by apply Forall_app. }
    split; [| done].
    unfold nonempty. destruct (Text.truthy image); [| done].
    apply stored_delete; [done |].
    intros [Hin|Hin]%elem_of_app; [| done]. apply (Hac image Hin). by left.
Qed.

(** X18.  Whatever requests are served, every image a listing names is
    in the upload folder and no two listings name the same image,
    provided listing ids are distinct to begin with. *)
Theorem requests_keep_images_stored (log : list (Route * Request)) (st : State) :
  listings_unique st -> images_stored st -> images_stored (serve_all log st).
Proof.
  intros Huniq Himg.
  assert (listings_unique (serve_all log st) /\ images_stored (serve_all log st)) as [_ H];
    [| done].
  apply (fold_serve_all (fun s => listings_unique s /\ images_stored s)); [| done].
  intros route req st' [H1 H2]. split.
  - by apply serve_listings_unique.
  - by apply serve_images_stored.
Qed.

End ImageFacts.

(** ** Sessions, seeding, paths and links *)

Section SessionFacts.
Context {RT : PyRuntime} {SEC : PySecurity}.

Lemma find_snoc_last {A} (f : A -> bool) (l : list A) (x : A) :
  Forall (fun y => f y = false) l -> f x = true -> List.find f (l ++ [x]) = Some x.
Proof.
  intros Hl Hx. induction Hl as [|y l Hy _ IH]; simpl; [by rewrite Hx |].
  by rewrite Hy.
Qed.

(** X19.  A user who has just registered can log in with the same
    password and any spelling of the email that normalises alike; the
    session then holds the new user's id, under which [current_user]
    finds that user.  (The password hash is assumed to verify the
    password it was made from.) *)
Theorem register_then_login (r1 r2 : Request) (st st1 : State) (o1 : Outcome)
    (e1 e2 pw : string) :
  check_password_hash (generate_password_hash pw) pw = true ->
  method r2 = POST ->
  register r1 st = (o1, st1) ->
  response o1 = Redirect "login" None ->
  form r1 !! "email" = Some e1 ->
  form r1 !! "password" = Some pw ->
  form r2 !! "email" = Some e2 ->
  form r2 !! "password" = Some pw ->
  Text.lower (Text.strip e2) = Text.lower (Text.strip e1) ->
  exists u,
    users st1 = (users st ++ [u])%list
    /\ login r2 st1
       = (flash_then "Logged in." "success" (Redirect "index" None), Some (User.id u))
    /\ forall req, session_user_id req = Some (User.id u) ->
         current_user req st1 = Some u.
Proof.
  intros Hcheck Hpost Hreg Hresp He1 Hpw1 He2 Hpw2 Hnorm.
  apply register_cases in Hreg
    as [[_ Hne]|(u & n & e & pw' & _ & _ & He & Hpw & _ & -> & Hu & _ & _ & _ & Hfresh)];
    [done |].
  rewrite He1 in He. injection He as <-. rewrite Hpw1 in Hpw. injection Hpw as <-.
  exists u. cbn [users]. split; [done |]. split.
  - unfold login, form_item. rewrite Hpost, He2, Hpw2.
    cbn [fmap result_fmap mbind result_bind users]. rewrite Hnorm.
    rewrite (find_snoc_last _ _ u).
    + unfold check_password. subst u. cbn [User.password_hash User.id].
      by rewrite Hcheck.
    + eapply Forall_impl; [exact Hfresh |]. intros v Hv. by apply String.eqb_neq.
    + subst u. apply String.eqb_refl.
  - intros req Hreq. unfold current_user. rewrite Hreq. cbn [users].
    destruct (next_id_fresh (User.id <$> users st)) as [H1 Hlt].
    assert (User.id u = next_id (User.id <$> users st)) as Hid by (by subst u).
    destruct (User.id u =? 0) eqn:E; [apply Z.eqb_eq in E; lia |].
    apply find_snoc_last; [| apply Z.eqb_refl].
    apply Forall_fmap in Hlt. eapply Forall_impl; [exact Hlt |].
    intros v Hv. simpl in Hv. apply Z.eqb_neq. lia.
Qed.

(** X20.  A login for which no user has both the normalised email and a
    verifying password is answered with one and the same notice, whether
    the email is unknown or the password wrong, and the session keeps
    the identity it had. *)
Theorem login_failure_is_uniform (req : Request) (st : State) (e pw : string) :
  method req = POST ->
  form req !! "email" = Some e ->
  form req !! "password" = Some pw ->
  Forall (fun u => User.email u = Text.lower (Text.strip e) ->
                   check_password u pw = false) (users st) ->
  login req st
  = (flash_then "Invalid email or password." "danger" (Redirect "login" None),
     session_user_id req).
Proof.
  intros Hpost He Hpw Hall.
  unfold login, form_item. rewrite Hpost, He, Hpw.
  cbn [fmap result_fmap mbind result_bind].
  destruct (List.find _ (users st)) as [u|] eqn:Hfind; [| done].
  apply find_some in Hfind as [Hin Heq]. apply String.eqb_eq in Heq.
  rewrite Forall_forall in Hall.
  by rewrite (Hall u (proj2 (list_elem_of_In _ _) Hin) Heq).
Qed.

(** X21.  After a logout the session carries no identity: a create,
    edit or delete sent with it is redirected to the login page and
    changes nothing. *)
Theorem logout_ends_access (pid : Z) (req0 req : Request) (st0 st : State) :
  session_user_id req = snd (logout req0 st0) ->
  add_property req st = (login_notice, st)
  /\ edit_property pid req st = (login_notice, st)
  /\ delete_property pid req st = (login_notice, st).
Proof.
  intros Hsession. apply unauthenticated_exits.
  unfold current_user. by rewrite Hsession.
Qed.

(** X22.  [init_db] seeds the demo owner into an empty user table and
    only there: a table with users is left alone, running it twice is
    running it once, and listings and uploads are never touched. *)
Theorem init_db_seeds_once (st : State) :
  init_db (init_db st) = init_db st
  /\ listings (init_db st) = listings st
  /\ uploads (init_db st) = uploads st
  /\ (users st <> [] -> init_db st = st)
  /\ (users st = [] ->
      users (init_db st)
      = [User.mk 1 "Demo Owner" "owner@example.com"
           (generate_password_hash "demo123") "owner"]).
Proof.
  unfold init_db. destruct (users st) as [|u us] eqn:E; simpl.
  - repeat split; try done.
  - rewrite E. repeat split; try done.
Qed.

End SessionFacts.

Section PathFacts.

Lemma rsplit_dot_None p : rsplit_dot p = None -> Text.existsb is_dot p = false.
Proof.
  induction p as [|c p IH]; [done |]. simpl.
  destruct (rsplit_dot p) as [[b e]|]; [done |].
  destruct (is_dot c); [done |]. intros _. by apply IH.
Qed.

Lemma rsplit_dot_Some p b e :
  rsplit_dot p = Some (b, e) ->
  exists e', e = String "." e' /\ Text.existsb is_dot e' = false.
Proof.
  revert b e. induction p as [|c p IH]; [done |]. intros b e. simpl.
  destruct (rsplit_dot p) as [[b' e']|] eqn:E.
  - intros [= <- <-]. by apply (IH b').
  - destruct (is_dot c) eqn:Hc; [| done]. intros [= <- <-].
    apply Ascii.eqb_eq in Hc as ->. exists p. split; [done |]. by apply rsplit_dot_None.
Qed.

(** X23.  [splitext] cuts a name in two parts that put together give
    the name back; the extension is empty, or it starts with the last
    dot of the name, holds no other dot and no separator, and the file
    name before it is not made of dots only. *)
Theorem splitext_extension (p : string) :
  let '(base, ext) := splitext p in
  base ++ ext = p
  /\ (ext = ""
      \/ exists e, ext = String "." e
           /\ Text.existsb is_dot e = false
           /\ Text.existsb is_sep e = false
           /\ Text.existsb (fun c => negb (is_dot c)) (basename base) = true).
Proof.
  destruct (splitext p) as [base ext] eqn:Hs.
  split; [by apply splitext_app |].
  revert Hs. unfold splitext.
  destruct (rsplit_dot p) as [[b e]|] eqn:E; [| intros [= <- <-]; by left].
  destruct (negb (Text.existsb is_sep e)) eqn:Hsep; simpl; [| intros [= <- <-]; by left].
  destruct (Text.existsb _ (basename b)) eqn:Hbase; [| intros [= <- <-]; by left].
  intros [= <- <-]. right.
  apply rsplit_dot_Some in E as (e' & -> & Hdot).
  exists e'. apply negb_true_iff in Hsep. simpl in Hsep. done.
Qed.

(** X24.  Two different locations never get the same synthesized map
    link. *)
Theorem build_gmaps_link_distinct (a b : string) :
  a <> b -> build_gmaps_link a <> build_gmaps_link b.
Proof.
  intros Hne Heq. apply Hne. unfold build_gmaps_link in Heq.
  apply String.app_inj in Heq.
  assert (unquote_plus (quote_plus a) = unquote_plus (quote_plus b)) as H
    by (by rewrite Heq).
  rewrite !unquote_quote_plus in H. by injection H.
Qed.

End PathFacts.

(** ** The newest listing, and accepted logins *)

Section NewestFacts.
Context {RT : PyRuntime} {SEC : PySecurity}.

Lemma sorted_newest_first (s l : list Property.t) p :
  StronglySorted id_desc s ->
  s ≡ₚ (l ++ [p])%list ->
  Forall (fun q => Property.id q < Property.id p) l ->
  exists rest, s = p :: rest.
Proof.
  intros Hs Hperm Hlt.
  assert (p ∈ s) as Hp
    by (rewrite Hperm; apply elem_of_app; right; constructor).
  destruct s as [|x rest]; [by apply elem_of_nil in Hp |].
  assert (x ∈ (l ++ [p])%list) as Hx by (rewrite <- Hperm; constructor).
  apply elem_of_app in Hx as [Hx|Hx%list_elem_of_singleton]; [| subst x; by exists rest].
  apply elem_of_cons in Hp as [->|Hp]; [by exists rest |].
  exfalso.
  apply StronglySorted_cons in Hs as [Hall _].
  rewrite Forall_forall in Hall. specialize (Hall p Hp). unfold id_desc in Hall.
  rewrite Forall_forall in Hlt. specialize (Hlt x Hx). lia.
Qed.

(** X25.  A listing just created is the newest: it heads the front page
    and the unfiltered search. *)
Theorem created_listing_shown_first (req req' : Request) (st st' : State)
    (o : Outcome) :
  add_property req st = (o, st') ->
  response o = Redirect "properties" None ->
  exists p shown found,
    listings st' = (listings st ++ [p])%list
    /\ index req' st' = (plain (Render "index.html" (p :: shown)), st')
    /\ properties_query ∅ (listings st') = p :: found.
Proof.
  intros Hadd Hresp.
  apply add_property_cases in Hadd
    as [[_ Hne]|[(image & fs & Hr & _)|(u & p & fs & _ & _ & _ & -> & _ & Hid & _)]];
    [done | congruence |].
  destruct (next_id_fresh (Property.id <$> listings st)) as [_ Hfresh].
  apply Forall_fmap in Hfresh. rewrite <- Hid in Hfresh.
  destruct (sorted_newest_first (order_by_id_desc (listings st ++ [p])) (listings st) p)
    as [rest Hrest];
    [apply order_by_id_desc_sorted | apply order_by_id_desc_perm | exact Hfresh |].
  exists p, (take 5 rest), rest. cbn [listings].
  split; [done |]. split.
  - unfold index. cbn [listings]. by rewrite Hrest.
  - unfold properties_query, get_float, get_int, get_default.
    rewrite !lookup_empty. exact Hrest.
Qed.

(** X26.  A login that is accepted is always backed by a user of the
    table whose email is the normalised form text and whose stored hash
    verifies the password sent; the session then holds that user's id. *)
Theorem login_success_is_verified (req : Request) (st : State) (o : Outcome)
    (session : option Z) :
  login req st = (o, session) ->
  response o = Redirect "index" None ->
  exists u e pw,
    In u (users st) /\ session = Some (User.id u)
    /\ method req = POST
    /\ form req !! "email" = Some e /\ form req !! "password" = Some pw
    /\ User.email u = Text.lower (Text.strip e)
    /\ check_password u pw = true.
Proof.
  unfold login, form_item.
  destruct (method req); [by intros [= <- <-] |].
  destruct (form req !! "email") as [e|]; [| by intros [= <- <-]].
  destruct (form req !! "password") as [pw|]; [| by intros [= <- <-]].
  cbn [fmap result_fmap mbind result_bind].
  destruct (List.find _ (users st)) as [u|] eqn:Hfind; [| by intros [= <- <-]].
  destruct (check_password u pw) eqn:Hcheck; [| by intros [= <- <-]].
  intros [= <- <-] _. apply find_some in Hfind as [Hin Heq].
  apply String.eqb_eq in Heq. by exists u, e, pw.
Qed.

End NewestFacts.

(** ** The further statements on the small site *)

Section OnTheSiteAgain.
Import Site Visit.

Lemma search_without_filters_witness :
  let args : gmap string string := {[ "page" := "2" ]} in
  @properties_query rt args (listings st0) ≡ₚ listings st0
  /\ StronglySorted id_desc (@properties_query rt args (listings st0)).
Proof.
  intros args. apply (@search_without_filters rt args (listings st0)).
  repeat constructor.
Defined.

Lemma blank_text_filter_is_absent_witness :
  let args : gmap string string := list_to_map [("location", "  "); ("type", "house")] in
  Text.strip "  " = ""
  /\ @properties_query rt args (listings st0)
     = @properties_query rt (delete "location" args) (listings st0).
Proof.
  intros args. split; [reflexivity |].
  apply (@blank_text_filter_is_absent rt args (listings st0) "location" "  ");
    [reflexivity |].
  left. split; reflexivity.
Defined.

Lemma search_location_ignores_case_witness :
  let args : gmap string string := {[ "location" := "lagos" ]} in
  Text.sql_lower "LAGOS" = Text.sql_lower "lagos"
  /\ @properties_query rt (<["location" := "LAGOS"]> args) (listings st0)
     = @properties_query rt args (listings st0).
Proof.
  intros args. split; [reflexivity |].
  apply (@search_location_ignores_case rt args (listings st0) "lagos" "LAGOS");
    reflexivity.
Defined.

Lemma unauthenticated_mutation_rejected_witness :
  session_user_id stale = Some 99
  /\ @add_property rt stale st0 = (login_notice, st0)
  /\ @edit_property rt 1 stale st0 = (login_notice, st0)
  /\ delete_property 1 stale st0 = (login_notice, st0).
Proof.
  split; [reflexivity |].
  apply (@unauthenticated_mutation_rejected rt 1 stale st0).
  right; right. exists 99. split; [reflexivity |].
  repeat constructor; discriminate.
Defined.

Lemma delete_by_other_user_forbidden_witness :
  current_user by_visitor st0 = Some visitor
  /\ delete_property 1 by_visitor st0 = (plain (Abort 403), st0).
Proof.
  split; [reflexivity |].
  apply (delete_by_other_user_forbidden 1 by_visitor st0 visitor flat);
    [reflexivity | reflexivity | discriminate].
Defined.


Lemma deleted_listing_is_gone_witness :
  let r := delete_property 1 remove st0 in
  response (fst r) = Redirect "properties" None
  /\ property_detail 1 remove (snd r) = (plain (Abort 404), snd r)
  /\ (is_Some (current_user remove (snd r)) ->
      @edit_property rt 1 remove (snd r) = (plain (Abort 404), snd r)
      /\ delete_property 1 remove (snd r) = (plain (Abort 404), snd r)).
Proof.
  intros r. split; [reflexivity |].
  apply (@deleted_listing_is_gone rt 1 remove remove st0 (snd r) (fst r)); reflexivity.
Defined.

Lemma register_requires_all_fields_witness :
  Text.strip "  " = ""
  /\ @register rt nameless st0
     = (flash_then "All fields are required." "danger" (Redirect "register" None), st0).
Proof.
  split; [reflexivity |].
  apply (@register_requires_all_fields rt nameless st0 "  " "eve@example.com" "pw");
    try reflexivity.
  left. reflexivity.
Defined.

(** A NaN is stored as NULL, and a commit that fails on the rooms
    value leaves the upload behind and the table as it was. *)
Example nan_and_overflow_on_create :
  Property.area <$> last (listings (snd (@add_property rt create_nan st0))) = Some None
  /\ fst (@add_property rt create_huge st0) = plain (Raise "OverflowError")
  /\ listings (snd (@add_property rt create_huge st0)) = listings st0
  /\ uploads (snd (@add_property rt create_huge st0)) !! "door.png" = Some photo'.
Proof. repeat split; vm_compute; reflexivity. Qed.


Lemma uploaded_image_is_served_witness :
  let r := @add_property rt create st0 in
  files create !! "image" = Some upload
  /\ Text.truthy (Text.strip (filename upload)) = true
  /\ exists p n,
       listings (snd r) = (listings st0 ++ [p])%list
       /\ Property.image_filename p = Some n
       /\ uploaded_file n st0 = NotFound
       /\ uploaded_file n (snd r) = SendFile (stream upload)
       /\ forall m data, uploaded_file m st0 = SendFile data ->
            uploaded_file m (snd r) = SendFile data.
Proof.
  intros r. split; [reflexivity |]. split; [reflexivity |].
  apply (@uploaded_image_is_served rt create st0 (snd r) (fst r) upload); reflexivity.
Defined.

Lemma edit_replaces_row_witness :
  let r := @edit_property rt 1 revise st0 in
  response (fst r) = Redirect "property_detail" (Some 1)
  /\ exists p p',
       get_property 1 (listings st0) = Some p
       /\ get_property 1 (listings (snd r)) = Some p'
       /\ users (snd r) = users st0
       /\ Property.id p' = 1
       /\ Property.owner_id p' = Property.owner_id p
       /\ Property.id <$> listings (snd r) = Property.id <$> listings st0
       /\ (forall q, Property.id q <> 1 -> In q (listings (snd r)) <-> In q (listings st0))
       /\ (forall m data, uploads st0 !! m = Some data -> uploads (snd r) !! m = Some data)
       /\ ((forall f, files revise !! "image" = Some f ->
              Text.truthy (Text.strip (filename f)) = false) ->
           Property.image_filename p' = Property.image_filename p
           /\ uploads (snd r) = uploads st0)
       /\ form revise !! "title" = Some (Property.title p')
       /\ form revise !! "location" = Some (Property.location p')
       /\ form revise !! "property_type" = Some (Property.property_type p')
       /\ form revise !! "sale_or_rent" = Some (Property.sale_or_rent p')
       /\ form revise !! "contact" = Some (Property.contact p')
       /\ Property.gmap_link p'
          = (if Text.truthy (Text.strip (get_default (form revise) "gmap_link" ""))
             then Text.strip (get_default (form revise) "gmap_link" "")
             else build_gmaps_link (Property.location p')).
Proof.
  intros r. split; [reflexivity |].
  apply (@edit_replaces_row rt 1 revise st0 (snd r) (fst r)); reflexivity.
Defined.

Lemma requests_keep_users_unique_witness : users_unique (@serve_all rt log st0).
Proof.
  apply (@requests_keep_users_unique rt log st0).
  split; apply (bool_decide_unpack _); vm_compute; exact I.
Defined.

Lemma requests_keep_listing_ids_unique_witness : listings_unique (@serve_all rt log st0).
Proof.
  apply (@requests_keep_listing_ids_unique rt log st0).
  apply (bool_decide_unpack _). vm_compute. exact I.
Defined.

Lemma requests_keep_owners_witness : owners_exist (@serve_all rt log st0).
Proof.
  apply (@requests_keep_owners rt log st0).
  apply (bool_decide_unpack _). vm_compute. exact I.
Defined.

Lemma requests_keep_images_stored_witness : images_stored (@serve_all rt log st0).
Proof.
  apply (@requests_keep_images_stored rt log st0).
  - apply (bool_decide_unpack _). vm_compute. exact I.
  - split; apply (bool_decide_unpack _); vm_compute; exact I.
Defined.

Lemma register_then_login_witness :
  let r := @register rt signup st0 in
  @check_password_hash sec (@generate_password_hash rt "pw") "pw" = true
  /\ response (fst r) = Redirect "login" None
  /\ Text.lower (Text.strip "EVE@example.com") = Text.lower (Text.strip " Eve@Example.com ")
  /\ exists u,
       users (snd r) = (users st0 ++ [u])%list
       /\ @login sec signin (snd r)
          = (flash_then "Logged in." "success" (Redirect "index" None), Some (User.id u))
       /\ forall req, session_user_id req = Some (User.id u) ->
            current_user req (snd r) = Some u.
Proof.
  intros r. split; [reflexivity |]. split; [reflexivity |]. split; [reflexivity |].
  apply (@register_then_login rt sec signup signin st0 (snd r) (fst r)
           " Eve@Example.com " "EVE@example.com" "pw"); reflexivity.
Defined.

Lemma login_failure_is_uniform_witness :
  @login sec wrong_password st0
  = (flash_then "Invalid email or password." "danger" (Redirect "login" None),
     session_user_id wrong_password).
Proof.
  apply (@login_failure_is_uniform sec wrong_password st0 "owner@example.com" "nope");
    try reflexivity.
  repeat constructor.
Defined.

Lemma logout_ends_access_witness :
  let req := browser POST (snd (logout remove st0)) listing_form None in
  @add_property rt req st0 = (login_notice, st0)
  /\ @edit_property rt 1 req st0 = (login_notice, st0)
  /\ delete_property 1 req st0 = (login_notice, st0).
Proof.
  intros req. apply (@logout_ends_access rt 1 remove req st0 st0). reflexivity.
Defined.

Lemma build_gmaps_link_distinct_witness :
  "Lagos" <> "Abuja" /\ build_gmaps_link "Lagos" <> build_gmaps_link "Abuja".
Proof.
  split; [discriminate |].
  apply (build_gmaps_link_distinct "Lagos" "Abuja"). discriminate.
Defined.

Lemma created_listing_shown_first_witness :
  let r := @add_property rt create st0 in
  response (fst r) = Redirect "properties" None
  /\ exists p shown found,
       listings (snd r) = (listings st0 ++ [p])%list
       /\ index remove (snd r) = (plain (Render "index.html" (p :: shown)), snd r)
       /\ @properties_query rt ∅ (listings (snd r)) = p :: found.
Proof.
  intros r. split; [reflexivity |].
  apply (@created_listing_shown_first rt create remove st0 (snd r) (fst r)); reflexivity.
Defined.

Lemma login_success_is_verified_witness :
  let req := browser POST None [("email", " Owner@Example.com"); ("password", "demo123")] None in
  let r := @login sec req st0 in
  response (fst r) = Redirect "index" None
  /\ exists u e pw,
       In u (users st0) /\ snd r = Some (User.id u)
       /\ method req = POST
       /\ form req !! "email" = Some e /\ form req !! "password" = Some pw
       /\ User.email u = Text.lower (Text.strip e)
       /\ @check_password sec u pw = true.
Proof.
  intros req r. split; [reflexivity |].
  apply (@login_success_is_verified sec req st0 (fst r) (snd r)); reflexivity.
Defined.

End OnTheSiteAgain.
